(** * Totals engine of the Medusa order-pricing subsystem

    A shallow embedding of [TotalsNewService]
    (src/packages/medusa/src/api/routes/store/products/index.ts, second
    document of the file) and the properties of its totals, refund and
    gift-card computations.

    Numbers.  An amount, a quantity or a rate is a JavaScript number.  The
    service is embedded twice.  The first embedding computes on exact
    rationals ([Qc], canonical fractions, so that [=] is equality of
    values) and carries the properties of the control flow: which path is
    taken, which error is raised, which fields are added into which.  The
    one place where the service computes with an absent operand is the
    flat-rate shipping computation reached through the batch entry point;
    the fields of a shipping totals record are therefore of type [number],
    a rational or [NaN].  The second embedding, [Module Double], computes on
    binary64 values as the code does, and carries the properties that fix
    the value a method returns.

    Fallible code.  A method that throws, or an awaited call that rejects,
    returns [inl e]; the methods are sequential, so [async]/[await] is plain
    sequencing in the [Result] monad.

    External capabilities.  The tax calculation strategy, the tax line
    provider, the feature flag router and the helper
    [calculatePriceTaxAmount] are not part of the service: they are the
    fields of the class [Capabilities], and every property below holds for
    all of them. *)

From Stdlib Require Import QArith Qcanon Qround.
From Stdlib Require Import Floats.
From stdpp Require Import gmap strings list.

Local Open Scope Qc_scope.

(** ** JavaScript values *)

Module JS.

(** [Math.round]: the nearest integer, a tie going up. *)
Definition Math_round (x : Qc) : Qc := Qc_of_Z (Qfloor (x + Q2Qc (1 # 2))).

(** [Math.min] on two numbers. *)
Definition Math_min (a b : Qc) : Qc :=
  match a ?= b with Gt => b | _ => a end.

(** Truthiness of a number: every number but zero. *)
Definition truthy (q : Qc) : bool := negb (Qnum q =? 0)%Z.

(** Truthiness of [number | null | undefined]. *)
Definition truthy_opt (o : option Qc) : bool :=
  match o with Some q => truthy q | None => false end.

(** Truthiness of [boolean | undefined]. *)
Definition truthy_flag (o : option bool) : bool :=
  match o with Some b => b | None => false end.

(** [x || 0] on [number | null | undefined]. *)
Definition or_zero (o : option Qc) : Qc :=
  match o with Some q => if truthy q then q else 0 | None => 0 end.

(** A number that may be [NaN]. *)
Inductive number : Type :=
  | Num (q : Qc)
  | NaN.

Definition lift2 (f : Qc -> Qc -> Qc) (a b : number) : number :=
  match a, b with
  | Num x, Num y => Num (f x y)
  | _, _ => NaN
  end.

Definition add : number -> number -> number := lift2 Qcplus.
Definition sub : number -> number -> number := lift2 Qcminus.
Definition mul : number -> number -> number := lift2 Qcmult.
Definition div : number -> number -> number := lift2 Qcdiv.

Definition round (a : number) : number :=
  match a with Num x => Num (Math_round x) | NaN => NaN end.

(** An operand read from a property that may be absent: [undefined]
    converts to [NaN]. *)
Definition of_opt (o : option Qc) : number :=
  match o with Some q => Num q | None => NaN end.

End JS.

Declare Scope number_scope.
Delimit Scope number_scope with num.
Bind Scope number_scope with JS.number.
Infix "+" := JS.add : number_scope.
Infix "-" := JS.sub : number_scope.
Infix "*" := JS.mul : number_scope.
Infix "/" := JS.div : number_scope.

(** An integer literal as a rational. *)
Definition int (z : Z) : Qc := Qc_of_Z z.

(** ** Errors and the result of a call *)

Inductive MedusaErrorTypes : Type :=
  | UNEXPECTED_STATE.

(** What a call can raise: a [MedusaError] of the service itself, or the
    rejection of an external capability. *)
Inductive exn : Type :=
  | MedusaError (type : MedusaErrorTypes) (message : string)
  | Rejected (reason : string).

Definition Result (A : Type) : Type := exn + A.

Definition ret {A} (a : A) : Result A := inr a.
Definition throw {A} (e : exn) : Result A := inl e.
Definition bind {A B} (c : Result A) (k : A -> Result B) : Result B :=
  match c with
  | inl e => inl e
  | inr a => k a
  end.

Notation "'await' x <- c ; k" := (bind c (fun x => k))
  (at level 10, x name, c at level 100, k at level 200).

(** The two messages of the service. *)
Definition tax_lines_must_be_joined : exn :=
  MedusaError UNEXPECTED_STATE "Tax Lines must be joined to calculate taxes".

Definition refund_tax_lines_missing : exn :=
  MedusaError UNEXPECTED_STATE
    "Cannot compute line item refund amount, tax lines are missing from the line item".

(** ** Data model *)

(** [LineItemTaxLine] and [ShippingMethodTaxLine]: the engine reads the rate,
    a percentage. *)
Record TaxLine : Type := mkTaxLine {
  rate : Qc;
  code : string;
}.

Module LineItem.
Record t : Type := mk {
  id : string;
  unit_price : Qc;
  quantity : Qc;
  includes_tax : bool;
  tax_lines : option (list TaxLine);
}.
End LineItem.

Module ShippingMethod.
Record t : Type := mk {
  id : string;
  price : Qc;
  includes_tax : bool;
  tax_lines : option (list TaxLine);
}.
End ShippingMethod.

Inductive DiscountRuleType : Type :=
  | FIXED
  | PERCENTAGE
  | FREE_SHIPPING.

Definition DiscountRuleType_eqb (a b : DiscountRuleType) : bool :=
  match a, b with
  | FIXED, FIXED | PERCENTAGE, PERCENTAGE | FREE_SHIPPING, FREE_SHIPPING => true
  | _, _ => false
  end.

Record DiscountRule : Type := mkRule { type : DiscountRuleType }.
Record Discount : Type := mkDiscount { rule : DiscountRule }.

Record Region : Type := mkRegion {
  tax_rate : Qc;
  gift_cards_taxable : bool;
}.

Record GiftCard : Type := mkGiftCard { balance : Qc }.

Module GiftCardTransaction.
(** [tax_rate] is nullable ([next.tax_rate || 0]); [is_taxable] is
    nullable ([next.is_taxable === null]). *)
Record t : Type := mk {
  tax_rate : option Qc;
  is_taxable : option bool;
  amount : Qc;
}.
End GiftCardTransaction.

(** An entry of [LineAllocationsMap]: [discount?.unit_amount]. *)
Record DiscountAllocation : Type := mkDiscountAllocation {
  alloc_amount : Qc;
  unit_amount : option Qc;
}.

Record LineAllocation : Type := mkLineAllocation {
  discount : option DiscountAllocation;
}.

(** The empty object [{}]. *)
Definition no_allocation : LineAllocation := {| discount := None |}.

(** [allocation.discount?.unit_amount || 0] *)
Definition discount_unit_amount (a : LineAllocation) : Qc :=
  JS.or_zero (d ← discount a; unit_amount d).

Module TaxCalculationContext.
Record t : Type := mk {
  allocation_map : gmap string LineAllocation;
  region : option Region;
  shipping_methods : list ShippingMethod.t;
}.

Definition with_allocation_map (m : gmap string LineAllocation) (c : t) : t :=
  {| allocation_map := m; region := region c;
     shipping_methods := shipping_methods c |}.

Definition with_shipping_methods (l : list ShippingMethod.t) (c : t) : t :=
  {| allocation_map := allocation_map c; region := region c;
     shipping_methods := l |}.
End TaxCalculationContext.

Module LineItemTotals.
Record t : Type := mk {
  unit_price : Qc;
  quantity : Qc;
  subtotal : Qc;
  tax_total : Qc;
  total : Qc;
  original_total : Qc;
  original_tax_total : Qc;
  tax_lines : option (list TaxLine);
  discount_total : Qc;
}.

Definition with_subtotal v (r : t) : t :=
  mk (unit_price r) (quantity r) v (tax_total r) (total r)
     (original_total r) (original_tax_total r) (tax_lines r) (discount_total r).
Definition with_tax_total v (r : t) : t :=
  mk (unit_price r) (quantity r) (subtotal r) v (total r)
     (original_total r) (original_tax_total r) (tax_lines r) (discount_total r).
Definition with_total v (r : t) : t :=
  mk (unit_price r) (quantity r) (subtotal r) (tax_total r) v
     (original_total r) (original_tax_total r) (tax_lines r) (discount_total r).
Definition with_original_total v (r : t) : t :=
  mk (unit_price r) (quantity r) (subtotal r) (tax_total r) (total r)
     v (original_tax_total r) (tax_lines r) (discount_total r).
Definition with_original_tax_total v (r : t) : t :=
  mk (unit_price r) (quantity r) (subtotal r) (tax_total r) (total r)
     (original_total r) v (tax_lines r) (discount_total r).
End LineItemTotals.

Module ShippingMethodTotals.
Record t : Type := mk {
  price : JS.number;
  tax_total : JS.number;
  total : JS.number;
  subtotal : JS.number;
  original_total : JS.number;
  original_tax_total : JS.number;
  tax_lines : option (list TaxLine);
}.

Definition with_tax_total v (r : t) : t :=
  mk (price r) v (total r) (subtotal r) (original_total r)
     (original_tax_total r) (tax_lines r).
Definition with_total v (r : t) : t :=
  mk (price r) (tax_total r) v (subtotal r) (original_total r)
     (original_tax_total r) (tax_lines r).
Definition with_subtotal v (r : t) : t :=
  mk (price r) (tax_total r) (total r) v (original_total r)
     (original_tax_total r) (tax_lines r).
Definition with_original_total v (r : t) : t :=
  mk (price r) (tax_total r) (total r) (subtotal r) v
     (original_tax_total r) (tax_lines r).
Definition with_original_tax_total v (r : t) : t :=
  mk (price r) (tax_total r) (total r) (subtotal r) (original_total r)
     v (tax_lines r).
End ShippingMethodTotals.

(** [{ total, tax_total }] of the gift-card computations. *)
Module GiftCardTotals.
Record t : Type := mk {
  total : Qc;
  tax_total : Qc;
}.
End GiftCardTotals.

(** The two maps returned by the tax line provider. *)
Record TaxLinesMaps : Type := mkTaxLinesMaps {
  lineItemsTaxLines : gmap string (list TaxLine);
  shippingMethodsTaxLines : gmap string (list TaxLine);
}.

(** [a ?? b] on two nullable values. *)
Definition coalesce {A} (a b : option A) : option A :=
  match a with Some _ => a | None => b end.

(** [for (const x of l) { s = await body(s, x) }]: the first failure ends the
    loop. *)
Fixpoint forOf {A S} (body : S -> A -> Result S) (l : list A) (s : S) : Result S :=
  match l with
  | [] => ret s
  | x :: l' => await s' <- body s x; forOf body l' s'
  end.

(** ** The capabilities the service consumes

    The three injected dependencies the engine calls, and the helper it
    imports from [../utils]. *)

Class Capabilities : Type := {
  (** [taxCalculationStrategy_.calculate(items, taxLines, context)] *)
  calculate :
    list LineItem.t -> list TaxLine -> TaxCalculationContext.t -> Result Qc;
  (** [taxProviderService_.getTaxLinesMap(items, context)] *)
  getTaxLinesMap :
    list LineItem.t -> TaxCalculationContext.t -> Result TaxLinesMaps;
  (** [featureFlagRouter_.isFeatureEnabled(key)] *)
  isFeatureEnabled : string -> bool;
  (** [TaxInclusivePricingFeatureFlag.key] *)
  TaxInclusivePricingFeatureFlag_key : string;
  (** [calculatePriceTaxAmount({ price, taxRate, includesTax })] *)
  calculatePriceTaxAmount : Qc -> Qc -> bool -> Qc;
}.

(** ** The service *)

Section TotalsNewService.

Context `{caps : Capabilities}.

Definition taxInclusivePricing : bool :=
  isFeatureEnabled TaxInclusivePricingFeatureFlag_key.

(** *** Line items *)

Definition getLineItemTotals
    (item : LineItem.t)
    (includeTax : option bool)
    (lineItemAllocation : LineAllocation)
    (taxLines : option (list TaxLine))
    (calculationContext : TaxCalculationContext.t)
  : Result LineItemTotals.t :=
  let subtotal := LineItem.unit_price item * LineItem.quantity item in
  let subtotal :=
    if taxInclusivePricing && LineItem.includes_tax item then 0 else subtotal in
  let discount_total :=
    discount_unit_amount lineItemAllocation * LineItem.quantity item in
  let tax_lines := default [] (coalesce taxLines (LineItem.tax_lines item)) in
  let totals :=
    {| LineItemTotals.unit_price := LineItem.unit_price item;
       LineItemTotals.quantity := LineItem.quantity item;
       LineItemTotals.subtotal := subtotal;
       LineItemTotals.discount_total := discount_total;
       LineItemTotals.total := subtotal - discount_total;
       LineItemTotals.original_total := subtotal;
       LineItemTotals.original_tax_total := 0;
       LineItemTotals.tax_total := 0;
       LineItemTotals.tax_lines := Some tax_lines |} in
  if JS.truthy_flag includeTax && (length tax_lines =? 0)%nat then
    throw tax_lines_must_be_joined
  else if (0 <? length tax_lines)%nat then
    await tax_total <- calculate [item] tax_lines calculationContext;
    let totals := LineItemTotals.with_tax_total tax_total totals in
    let noDiscountContext :=
      TaxCalculationContext.with_allocation_map ∅ calculationContext in
    await original_tax_total <- calculate [item] tax_lines noDiscountContext;
    let totals := LineItemTotals.with_original_tax_total original_tax_total totals in
    let totals :=
      if taxInclusivePricing && LineItem.includes_tax item then
        let totals :=
          LineItemTotals.with_subtotal
            (LineItemTotals.subtotal totals
             + (LineItemTotals.unit_price totals * LineItemTotals.quantity totals
                - LineItemTotals.original_tax_total totals)) totals in
        let totals :=
          LineItemTotals.with_total
            (LineItemTotals.total totals + LineItemTotals.subtotal totals) totals in
        LineItemTotals.with_original_total
          (LineItemTotals.original_total totals + LineItemTotals.subtotal totals)
          totals
      else totals in
    let totals :=
      LineItemTotals.with_total
        (LineItemTotals.total totals + LineItemTotals.tax_total totals) totals in
    let totals :=
      LineItemTotals.with_original_total
        (LineItemTotals.original_total totals
         + LineItemTotals.original_tax_total totals) totals in
    ret totals
  else ret totals.

Definition getLineItemTotalsLegacy
    (item : LineItem.t)
    (taxRate : Qc)
    (lineItemAllocation : LineAllocation)
    (calculationContext : TaxCalculationContext.t)
  : Result LineItemTotals.t :=
  let subtotal := LineItem.unit_price item * LineItem.quantity item in
  let subtotal :=
    if taxInclusivePricing && LineItem.includes_tax item then 0 else subtotal in
  let discount_total :=
    discount_unit_amount lineItemAllocation * LineItem.quantity item in
  let totals :=
    {| LineItemTotals.unit_price := LineItem.unit_price item;
       LineItemTotals.quantity := LineItem.quantity item;
       LineItemTotals.subtotal := subtotal;
       LineItemTotals.discount_total := discount_total;
       LineItemTotals.total := subtotal - discount_total;
       LineItemTotals.original_total := subtotal;
       LineItemTotals.original_tax_total := 0;
       LineItemTotals.tax_total := 0;
       LineItemTotals.tax_lines := LineItem.tax_lines item |} in
  let taxRate := taxRate / int 100 in
  let includesTax := taxInclusivePricing && LineItem.includes_tax item in
  let taxIncludedInPrice :=
    if negb (LineItem.includes_tax item) then 0
    else JS.Math_round
           (calculatePriceTaxAmount (LineItem.unit_price item) taxRate includesTax) in
  let totals :=
    LineItemTotals.with_subtotal
      ((LineItem.unit_price item - taxIncludedInPrice) * LineItem.quantity item)
      totals in
  let totals := LineItemTotals.with_total (LineItemTotals.subtotal totals) totals in
  let totals :=
    LineItemTotals.with_original_tax_total
      (LineItemTotals.subtotal totals * taxRate) totals in
  let totals :=
    LineItemTotals.with_tax_total
      ((LineItemTotals.subtotal totals - discount_total) * taxRate) totals in
  let totals :=
    LineItemTotals.with_total
      (LineItemTotals.total totals + LineItemTotals.tax_total totals) totals in
  let totals :=
    LineItemTotals.with_original_total
      (LineItemTotals.original_total totals
       + LineItemTotals.original_tax_total totals) totals in
  ret totals.

(** [calculationContext.allocation_map[id]?.discount?.unit_amount || 0] *)
Definition allocated_unit_amount
    (calculationContext : TaxCalculationContext.t) (id : string) : Qc :=
  JS.or_zero
    (a ← TaxCalculationContext.allocation_map calculationContext !! id;
     d ← discount a;
     unit_amount d).

Definition getLineItemRefundLegacy
    (lineItem : LineItem.t)
    (calculationContext : TaxCalculationContext.t)
    (taxRate : Qc)
  : Qc :=
  let includesTax := taxInclusivePricing && LineItem.includes_tax lineItem in
  let taxAmountIncludedInPrice :=
    if negb includesTax then 0
    else JS.Math_round
           (calculatePriceTaxAmount (LineItem.unit_price lineItem)
              (taxRate / int 100) includesTax) in
  let discountAmount :=
    allocated_unit_amount calculationContext (LineItem.id lineItem)
    * LineItem.quantity lineItem in
  let lineSubtotal :=
    (LineItem.unit_price lineItem - taxAmountIncludedInPrice)
    * LineItem.quantity lineItem - discountAmount in
  JS.Math_round (lineSubtotal * (1 + taxRate / int 100)).

Definition getLineItemRefund
    (lineItem : LineItem.t)
    (calculationContext : TaxCalculationContext.t)
    (taxRate : option Qc)
  : Result Qc :=
  match taxRate with
  | Some taxRate =>
      ret (getLineItemRefundLegacy lineItem calculationContext taxRate)
  | None =>
      let includesTax := taxInclusivePricing && LineItem.includes_tax lineItem in
      let discountAmount :=
        allocated_unit_amount calculationContext (LineItem.id lineItem)
        * LineItem.quantity lineItem in
      match LineItem.tax_lines lineItem with
      | None => throw refund_tax_lines_missing
      | Some tax_lines =>
          let totalTaxRate :=
            fold_left (fun acc next => acc + rate next / int 100) tax_lines 0 in
          let taxAmountIncludedInPrice :=
            if negb includesTax then 0
            else JS.Math_round
                   (calculatePriceTaxAmount (LineItem.unit_price lineItem)
                      totalTaxRate includesTax) in
          let lineSubtotal :=
            (LineItem.unit_price lineItem - taxAmountIncludedInPrice)
            * LineItem.quantity lineItem - discountAmount in
          let taxTotal :=
            fold_left
              (fun acc next =>
                 acc + JS.Math_round (lineSubtotal * (rate next / int 100)))
              tax_lines 0 in
          ret (lineSubtotal + taxTotal)
      end
  end.

(** *** Gift cards *)

(** The callback of the [reduce] over the transactions. *)
Definition giftCardTransactionStep
    (region : option Region)
    (acc : GiftCardTotals.t)
    (next : GiftCardTransaction.t)
  : GiftCardTotals.t :=
  let taxMultiplier :=
    JS.or_zero (GiftCardTransaction.tax_rate next) / int 100 in
  let taxMultiplier :=
    match GiftCardTransaction.is_taxable next, region with
    | None, Some r =>
        if gift_cards_taxable r then tax_rate r / int 100 else taxMultiplier
    | _, _ => taxMultiplier
    end in
  {| GiftCardTotals.total :=
       GiftCardTotals.total acc + GiftCardTransaction.amount next;
     GiftCardTotals.tax_total :=
       GiftCardTotals.tax_total acc
       + GiftCardTransaction.amount next * taxMultiplier |}.

Definition getGiftCardTransactionsTotals
    (giftCardTransactions : list GiftCardTransaction.t)
    (region : option Region)
  : GiftCardTotals.t :=
  fold_left (giftCardTransactionStep region) giftCardTransactions
    {| GiftCardTotals.total := 0; GiftCardTotals.tax_total := 0 |}.

(** [region?.gift_cards_taxable] as a condition. *)
Definition region_taxes_gift_cards (region : option Region) : bool :=
  match region with Some r => gift_cards_taxable r | None => false end.

Definition getGiftCardTotals
    (giftCardableAmount : Qc)
    (giftCardTransactions : option (list GiftCardTransaction.t))
    (region : option Region)
    (giftCards : option (list GiftCard))
  : GiftCardTotals.t :=
  match giftCardTransactions with
  | Some giftCardTransactions =>
      getGiftCardTransactionsTotals giftCardTransactions region
  | None =>
      let result := {| GiftCardTotals.total := 0; GiftCardTotals.tax_total := 0 |} in
      match giftCards with
      | None | Some [] => result
      | Some giftCards =>
          let giftAmount :=
            fold_left (fun acc next => acc + balance next) giftCards 0 in
          let result :=
            {| GiftCardTotals.total := JS.Math_min giftCardableAmount giftAmount;
               GiftCardTotals.tax_total := GiftCardTotals.tax_total result |} in
          match region with
          | Some r =>
              if gift_cards_taxable r then
                {| GiftCardTotals.total := GiftCardTotals.total result;
                   GiftCardTotals.tax_total :=
                     JS.Math_round
                       (GiftCardTotals.total result * tax_rate r / int 100) |}
              else result
          | None => result
          end
      end
  end.

(** *** Shipping methods *)

(** [discounts?.some((d) => d.rule.type === DiscountRuleType.FREE_SHIPPING)]
    as a condition. *)
Definition hasFreeShipping (discounts : option (list Discount)) : bool :=
  match discounts with
  | Some ds => existsb (fun d => DiscountRuleType_eqb (type (rule d)) FREE_SHIPPING) ds
  | None => false
  end.

Definition getShippingMethodTotals
    (shippingMethod : ShippingMethod.t)
    (includeTax : option bool)
    (calculationContext : TaxCalculationContext.t)
    (taxLines : option (list TaxLine))
    (discounts : option (list Discount))
  : Result ShippingMethodTotals.t :=
  let tax_lines :=
    default [] (coalesce taxLines (ShippingMethod.tax_lines shippingMethod)) in
  let totals :=
    {| ShippingMethodTotals.price := JS.Num (ShippingMethod.price shippingMethod);
       ShippingMethodTotals.original_total :=
         JS.Num (ShippingMethod.price shippingMethod);
       ShippingMethodTotals.total := JS.Num (ShippingMethod.price shippingMethod);
       ShippingMethodTotals.subtotal := JS.Num (ShippingMethod.price shippingMethod);
       ShippingMethodTotals.original_tax_total := JS.Num 0;
       ShippingMethodTotals.tax_total := JS.Num 0;
       ShippingMethodTotals.tax_lines := Some tax_lines |} in
  let calculationContext_ :=
    TaxCalculationContext.with_shipping_methods [shippingMethod]
      calculationContext in
  if JS.truthy_flag includeTax && (length tax_lines =? 0)%nat then
    throw tax_lines_must_be_joined
  else
    let includesTax :=
      taxInclusivePricing && ShippingMethod.includes_tax shippingMethod in
    await tax <- calculate [] tax_lines calculationContext_;
    let totals := ShippingMethodTotals.with_original_tax_total (JS.Num tax) totals in
    let totals :=
      ShippingMethodTotals.with_tax_total
        (ShippingMethodTotals.original_tax_total totals) totals in
    let totals :=
      if includesTax then
        ShippingMethodTotals.with_subtotal
          (ShippingMethodTotals.subtotal totals
           - ShippingMethodTotals.tax_total totals)%num totals
      else
        let totals :=
          ShippingMethodTotals.with_original_total
            (ShippingMethodTotals.original_total totals
             + ShippingMethodTotals.original_tax_total totals)%num totals in
        ShippingMethodTotals.with_total
          (ShippingMethodTotals.total totals
           + ShippingMethodTotals.tax_total totals)%num totals in
    let totals :=
      if hasFreeShipping discounts then
        let totals := ShippingMethodTotals.with_total (JS.Num 0) totals in
        let totals := ShippingMethodTotals.with_subtotal (JS.Num 0) totals in
        ShippingMethodTotals.with_tax_total (JS.Num 0) totals
      else totals in
    ret totals.

(** [taxRate] is declared a number; the batch entry point below calls the
    method with an options object that has no such key, hence the
    [option]: the absent operand makes the products [NaN]. *)
Definition getShippingMethodTotalsLegacy
    (shippingMethod : ShippingMethod.t)
    (calculationContext : TaxCalculationContext.t)
    (discounts : option (list Discount))
    (taxRate : option Qc)
  : Result ShippingMethodTotals.t :=
  let totals :=
    {| ShippingMethodTotals.price := JS.Num (ShippingMethod.price shippingMethod);
       ShippingMethodTotals.original_total :=
         JS.Num (ShippingMethod.price shippingMethod);
       ShippingMethodTotals.total := JS.Num (ShippingMethod.price shippingMethod);
       ShippingMethodTotals.subtotal := JS.Num (ShippingMethod.price shippingMethod);
       ShippingMethodTotals.original_tax_total := JS.Num 0;
       ShippingMethodTotals.tax_total := JS.Num 0;
       ShippingMethodTotals.tax_lines := ShippingMethod.tax_lines shippingMethod |} in
  let totals :=
    ShippingMethodTotals.with_original_tax_total
      (JS.round
         (ShippingMethodTotals.price totals
          * (JS.of_opt taxRate / JS.Num (int 100)))%num) totals in
  let totals :=
    ShippingMethodTotals.with_tax_total
      (JS.round
         (ShippingMethodTotals.price totals
          * (JS.of_opt taxRate / JS.Num (int 100)))%num) totals in
  ret totals.

(** *** Batch entry points *)

Definition getLineItemsTotals
    (items : list LineItem.t)
    (includeTax : option bool)
    (calculationContext : TaxCalculationContext.t)
    (taxRate : option Qc)
    (useExistingTaxLines : option bool)
  : Result (gmap string LineItemTotals.t) :=
  await lineItemsTaxLinesMap <-
    (if negb (JS.truthy_opt taxRate) && JS.truthy_flag includeTax then
       if JS.truthy_flag useExistingTaxLines then
         ret (fold_left
                (fun (m : gmap string (list TaxLine)) item =>
                   <[LineItem.id item := default [] (LineItem.tax_lines item)]> m)
                items ∅)
       else if (0 <? length items)%nat then
         await maps <- getTaxLinesMap items calculationContext;
         ret (lineItemsTaxLines maps)
       else ret ∅
     else ret ∅);
  let calculationMethod item lineItemAllocation taxLines :=
    match taxRate with
    | Some r =>
        if JS.truthy r then
          getLineItemTotalsLegacy item r lineItemAllocation calculationContext
        else
          getLineItemTotals item None lineItemAllocation taxLines
            calculationContext
    | None =>
        getLineItemTotals item None lineItemAllocation taxLines
          calculationContext
    end in
  forOf
    (fun (itemsTotals : gmap string LineItemTotals.t) item =>
       let lineItemAllocation :=
         default no_allocation
           (TaxCalculationContext.allocation_map calculationContext
              !! LineItem.id item) in
       await totals <-
         calculationMethod item lineItemAllocation
           (lineItemsTaxLinesMap !! LineItem.id item);
       ret (<[LineItem.id item := totals]> itemsTotals))
    items ∅.

Definition getShippingMethodsTotals
    (shippingMethods : list ShippingMethod.t)
    (includeTax : option bool)
    (discounts : option (list Discount))
    (taxRate : option Qc)
    (calculationContext : TaxCalculationContext.t)
    (useExistingTaxLines : option bool)
  : Result (gmap string ShippingMethodTotals.t) :=
  await shippingMethodsTaxLinesMap <-
    (if negb (JS.truthy_opt taxRate) && JS.truthy_flag includeTax then
       if JS.truthy_flag useExistingTaxLines then
         ret (fold_left
                (fun (m : gmap string (list TaxLine)) sm =>
                   <[ShippingMethod.id sm :=
                       default [] (ShippingMethod.tax_lines sm)]> m)
                shippingMethods ∅)
       else if (0 <? length shippingMethods)%nat then
         await maps <- getTaxLinesMap [] calculationContext;
         ret (shippingMethodsTaxLines maps)
       else ret ∅
     else ret ∅);
  let calculationMethod shippingMethod taxLines :=
    if JS.truthy_opt taxRate then
      (* the options object holds includeTax, calculationContext, taxLines
         and discounts: no taxRate *)
      getShippingMethodTotalsLegacy shippingMethod calculationContext discounts
        None
    else
      getShippingMethodTotals shippingMethod includeTax calculationContext
        taxLines discounts in
  forOf
    (fun (shippingMethodsTotals : gmap string ShippingMethodTotals.t) sm =>
       await totals <-
         calculationMethod sm
           (shippingMethodsTaxLinesMap !! ShippingMethod.id sm);
       ret (<[ShippingMethod.id sm := totals]> shippingMethodsTotals))
    shippingMethods ∅.

End TotalsNewService.

(** ** Concrete capabilities, for evaluating the service on inputs *)

Module Sample.

(** A strategy that taxes each item on its price after the allocated
    discount, and each shipping method of the context on its price, at
    every rate of the given tax lines, rounding per line. *)
Definition taxable_amount (c : TaxCalculationContext.t) (item : LineItem.t) : Qc :=
  (LineItem.unit_price item
   - JS.or_zero
       (a ← TaxCalculationContext.allocation_map c !! LineItem.id item;
        d ← discount a; unit_amount d))
  * LineItem.quantity item.

Definition tax_of (lines : list TaxLine) (base : Qc) : Qc :=
  fold_left (fun acc l => acc + JS.Math_round (base * (rate l / int 100))) lines 0.

Definition strategy
    (items : list LineItem.t) (lines : list TaxLine)
    (c : TaxCalculationContext.t) : Result Qc :=
  match items with
  | [] =>
      ret (fold_left (fun acc sm => acc + tax_of lines (ShippingMethod.price sm))
             (TaxCalculationContext.shipping_methods c) 0)
  | _ =>
      ret (fold_left (fun acc it => acc + tax_of lines (taxable_amount c it))
             items 0)
  end.

(** A provider that knows no tax line. *)
Definition provider (items : list LineItem.t) (c : TaxCalculationContext.t)
  : Result TaxLinesMaps :=
  ret {| lineItemsTaxLines := ∅; shippingMethodsTaxLines := ∅ |}.

(** The usual price/tax helper: the tax contained in a price that includes
    it, or the tax to add to a price that does not. *)
Definition priceTaxAmount (price taxRate : Qc) (includesTax : bool) : Qc :=
  if includesTax then taxRate * price / (1 + taxRate) else price * taxRate.

Definition caps (flag : bool) : Capabilities :=
  {| calculate := strategy;
     getTaxLinesMap := provider;
     isFeatureEnabled := fun _ => flag;
     TaxInclusivePricingFeatureFlag_key := "tax_inclusive_pricing";
     calculatePriceTaxAmount := priceTaxAmount |}.

Definition context : TaxCalculationContext.t :=
  {| TaxCalculationContext.allocation_map := ∅;
     TaxCalculationContext.region :=
       Some {| tax_rate := int 10; gift_cards_taxable := true |};
     TaxCalculationContext.shipping_methods := [] |}.

Definition vat (r : Z) : TaxLine := {| rate := int r; code := "vat" |}.

Definition item (price qty : Z) (inclusive : bool) (lines : option (list TaxLine))
  : LineItem.t :=
  {| LineItem.id := "item_1";
     LineItem.unit_price := int price;
     LineItem.quantity := int qty;
     LineItem.includes_tax := inclusive;
     LineItem.tax_lines := lines |}.

Definition method (price : Z) (inclusive : bool) (lines : option (list TaxLine))
  : ShippingMethod.t :=
  {| ShippingMethod.id := "sm_1";
     ShippingMethod.price := int price;
     ShippingMethod.includes_tax := inclusive;
     ShippingMethod.tax_lines := lines |}.

Definition free_shipping : Discount := {| rule := {| type := FREE_SHIPPING |} |}.

End Sample.

(** ** Specification-level vocabulary *)

(** The sum of a list of amounts, as the specification writes a sum. *)
Definition sum_of {A} (f : A -> Qc) (l : list A) : Qc :=
  foldr (fun x acc => f x + acc) 0 l.

(** The tax lines a current-path computation works with: the supplied
    override, else the entity's own tax lines, else none. *)
Definition effective_tax_lines
    (taxLines own : option (list TaxLine)) : list TaxLine :=
  match taxLines, own with
  | Some l, _ => l
  | None, Some l => l
  | None, None => []
  end.

(** Some discount of the supplied set is a free-shipping discount. *)
Definition free_shipping_applies (discounts : option (list Discount)) : Prop :=
  exists ds d, discounts = Some ds /\ d ∈ ds /\ type (rule d) = FREE_SHIPPING.

(** A value is a whole number. *)
Definition is_integer (q : Qc) : Prop := exists z : Z, q = int z.

(** The tax multiplier of one gift-card transaction: its own recorded rate,
    or the rate of the region when the transaction does not say whether it
    is taxable and the region taxes gift cards. *)
Definition gift_card_tax_multiplier
    (region : option Region) (t : GiftCardTransaction.t) : Qc :=
  match GiftCardTransaction.is_taxable t, region with
  | None, Some r =>
      if gift_cards_taxable r then tax_rate r / int 100
      else JS.or_zero (GiftCardTransaction.tax_rate t) / int 100
  | _, _ => JS.or_zero (GiftCardTransaction.tax_rate t) / int 100
  end.

(** What one transaction adds to [tax_total]. *)
Definition gift_card_tax_contribution
    (region : option Region) (t : GiftCardTransaction.t) : Qc :=
  GiftCardTransaction.amount t * gift_card_tax_multiplier region t.

(** [calculationContext.allocation_map[item.id] || {}] *)
Definition allocation_of
    (ctx : TaxCalculationContext.t) (item : LineItem.t) : LineAllocation :=
  default no_allocation
    (TaxCalculationContext.allocation_map ctx !! LineItem.id item).

Section Vocabulary.

Context `{caps : Capabilities}.

(** The tax embedded in the unit price of a refunded line item: backed out
    with the price/tax helper at the sum of the rates of its tax lines when
    tax-inclusive pricing applies, zero otherwise. *)
Definition embeddedTax (lineItem : LineItem.t) (lines : list TaxLine) : Qc :=
  if taxInclusivePricing && LineItem.includes_tax lineItem then
    JS.Math_round
      (calculatePriceTaxAmount (LineItem.unit_price lineItem)
         (sum_of (fun l => rate l / int 100) lines) true)
  else 0.

(** [(unit_price - embeddedTax) * quantity - discountAmount] *)
Definition refundSubtotal
    (lineItem : LineItem.t) (ctx : TaxCalculationContext.t)
    (lines : list TaxLine) : Qc :=
  (LineItem.unit_price lineItem - embeddedTax lineItem lines)
  * LineItem.quantity lineItem
  - allocated_unit_amount ctx (LineItem.id lineItem) * LineItem.quantity lineItem.

(** The tax the legacy line-item path takes out of the unit price. *)
Definition taxIncludedInPrice (item : LineItem.t) (taxRate : Qc) : Qc :=
  if LineItem.includes_tax item then
    JS.Math_round
      (calculatePriceTaxAmount (LineItem.unit_price item) (taxRate / int 100)
         (taxInclusivePricing && LineItem.includes_tax item))
  else 0.

End Vocabulary.

(** * The arithmetic of the code: binary64

    The amounts the service returns are JavaScript numbers, IEEE 754
    binary64 values, and [price * (rate / 100)] is not the exact product:
    [50 * (29 / 100)] is [14.499999999999998] and rounds to 14.  The
    properties that fix the value a method returns are therefore stated
    over the embedding of this module, which computes on Rocq's primitive
    binary64 floats, operation for operation as the source does.  A number
    is a [float] (it may be [NaN] or infinite); [number | null | undefined]
    is an [option float]. *)

Module Double.

Local Open Scope float_scope.

(** [2^52]: from this magnitude on every binary64 value is integral. *)
Definition two52 : float := 4503599627370496.

(** The largest integral value not above [x], for [|x| < 2^52]: adding and
    removing [2^52] rounds [x] to a nearest integer, which is one too large
    when it exceeds [x]. *)
Definition floor (x : float) : float :=
  let r := if x <? 0 then (x - two52) + two52 else (x + two52) - two52 in
  if x <? r then r - 1 else r.

(** [Math.round] (ECMA-262, 21.3.2.28): a value that is not finite or is
    integral is returned as it is; a value in (0, 0.5) gives [+0], one in
    [-0.5, 0) gives [-0]; any other value gives the closest integral value,
    the larger one on a tie. *)
Definition Math_round (x : float) : float :=
  if is_nan x || is_infinity x || negb (abs x <? two52) then x
  else if x =? floor x then x
  else if (0 <? x) && (x <? 0.5) then 0
  else if (x <? 0) && (-0.5 <=? x) then -0
  else if 0.5 <=? x - floor x then floor x + 1
  else floor x.

(** [Math.min] on two numbers: [NaN] if either is, and [-0] below [+0]. *)
Definition Math_min (a b : float) : float :=
  if is_nan a || is_nan b then nan
  else if a <? b then a
  else if b <? a then b
  else if get_sign a then a
  else b.

(** Truthiness of a number: every number but [+0], [-0] and [NaN]. *)
Definition truthy (x : float) : bool := negb (is_zero x || is_nan x).

(** [x || 0] on [number | null | undefined]. *)
Definition or_zero (o : option float) : float :=
  match o with Some x => if truthy x then x else 0 | None => 0 end.

(** An operand read from a property that may be absent: [undefined]
    converts to [NaN]. *)
Definition of_opt (o : option float) : float :=
  match o with Some x => x | None => nan end.

(** ** Data model *)

Record TaxLine : Type := mkTaxLine {
  rate : float;
  code : string;
}.

Module LineItem.
Record t : Type := mk {
  id : string;
  unit_price : float;
  quantity : float;
  includes_tax : bool;
  tax_lines : option (list TaxLine);
}.
End LineItem.

Module ShippingMethod.
Record t : Type := mk {
  id : string;
  price : float;
  includes_tax : bool;
  tax_lines : option (list TaxLine);
}.
End ShippingMethod.

Record Region : Type := mkRegion {
  tax_rate : float;
  gift_cards_taxable : bool;
}.

Record GiftCard : Type := mkGiftCard { balance : float }.

Module GiftCardTransaction.
Record t : Type := mk {
  tax_rate : option float;
  is_taxable : option bool;
  amount : float;
}.
End GiftCardTransaction.

Record DiscountAllocation : Type := mkDiscountAllocation {
  alloc_amount : float;
  unit_amount : option float;
}.

Record LineAllocation : Type := mkLineAllocation {
  discount : option DiscountAllocation;
}.

Definition no_allocation : LineAllocation := {| discount := None |}.

(** [allocation.discount?.unit_amount || 0] *)
Definition discount_unit_amount (a : LineAllocation) : float :=
  or_zero (d ← discount a; unit_amount d).

Module TaxCalculationContext.
Record t : Type := mk {
  allocation_map : gmap string LineAllocation;
  region : option Region;
  shipping_methods : list ShippingMethod.t;
}.
End TaxCalculationContext.

Module LineItemTotals.
Record t : Type := mk {
  unit_price : float;
  quantity : float;
  subtotal : float;
  tax_total : float;
  total : float;
  original_total : float;
  original_tax_total : float;
  tax_lines : option (list TaxLine);
  discount_total : float;
}.

Definition with_subtotal v (r : t) : t :=
  mk (unit_price r) (quantity r) v (tax_total r) (total r)
     (original_total r) (original_tax_total r) (tax_lines r) (discount_total r).
Definition with_tax_total v (r : t) : t :=
  mk (unit_price r) (quantity r) (subtotal r) v (total r)
     (original_total r) (original_tax_total r) (tax_lines r) (discount_total r).
Definition with_total v (r : t) : t :=
  mk (unit_price r) (quantity r) (subtotal r) (tax_total r) v
     (original_total r) (original_tax_total r) (tax_lines r) (discount_total r).
Definition with_original_total v (r : t) : t :=
  mk (unit_price r) (quantity r) (subtotal r) (tax_total r) (total r)
     v (original_tax_total r) (tax_lines r) (discount_total r).
Definition with_original_tax_total v (r : t) : t :=
  mk (unit_price r) (quantity r) (subtotal r) (tax_total r) (total r)
     (original_total r) v (tax_lines r) (discount_total r).
End LineItemTotals.

Module ShippingMethodTotals.
Record t : Type := mk {
  price : float;
  tax_total : float;
  total : float;
  subtotal : float;
  original_total : float;
  original_tax_total : float;
  tax_lines : option (list TaxLine);
}.

Definition with_tax_total v (r : t) : t :=
  mk (price r) v (total r) (subtotal r) (original_total r)
     (original_tax_total r) (tax_lines r).
Definition with_original_tax_total v (r : t) : t :=
  mk (price r) (tax_total r) (total r) (subtotal r) (original_total r)
     v (tax_lines r).
End ShippingMethodTotals.

Module GiftCardTotals.
Record t : Type := mk {
  total : float;
  tax_total : float;
}.
End GiftCardTotals.

(** The feature flag router and the helper [calculatePriceTaxAmount] of
    [../utils], which the legacy totals and the refunds consult. *)
Class Pricing : Type := {
  isFeatureEnabled : string -> bool;
  TaxInclusivePricingFeatureFlag_key : string;
  calculatePriceTaxAmount : float -> float -> bool -> float;
}.

(** ** The methods *)

Section Methods.

Context `{pricing : Pricing}.

Definition taxInclusivePricing : bool :=
  isFeatureEnabled TaxInclusivePricingFeatureFlag_key.

Definition getLineItemTotalsLegacy
    (item : LineItem.t)
    (taxRate : float)
    (lineItemAllocation : LineAllocation)
    (calculationContext : TaxCalculationContext.t)
  : Result LineItemTotals.t :=
  let subtotal := LineItem.unit_price item * LineItem.quantity item in
  let subtotal :=
    if taxInclusivePricing && LineItem.includes_tax item then 0 else subtotal in
  let discount_total :=
    discount_unit_amount lineItemAllocation * LineItem.quantity item in
  let totals :=
    {| LineItemTotals.unit_price := LineItem.unit_price item;
       LineItemTotals.quantity := LineItem.quantity item;
       LineItemTotals.subtotal := subtotal;
       LineItemTotals.discount_total := discount_total;
       LineItemTotals.total := subtotal - discount_total;
       LineItemTotals.original_total := subtotal;
       LineItemTotals.original_tax_total := 0;
       LineItemTotals.tax_total := 0;
       LineItemTotals.tax_lines := LineItem.tax_lines item |} in
  let taxRate := taxRate / 100 in
  let includesTax := taxInclusivePricing && LineItem.includes_tax item in
  let taxIncludedInPrice :=
    if negb (LineItem.includes_tax item) then 0
    else Math_round
           (calculatePriceTaxAmount (LineItem.unit_price item) taxRate includesTax) in
  let totals :=
    LineItemTotals.with_subtotal
      ((LineItem.unit_price item - taxIncludedInPrice) * LineItem.quantity item)
      totals in
  let totals := LineItemTotals.with_total (LineItemTotals.subtotal totals) totals in
  let totals :=
    LineItemTotals.with_original_tax_total
      (LineItemTotals.subtotal totals * taxRate) totals in
  let totals :=
    LineItemTotals.with_tax_total
      ((LineItemTotals.subtotal totals - discount_total) * taxRate) totals in
  let totals :=
    LineItemTotals.with_total
      (LineItemTotals.total totals + LineItemTotals.tax_total totals) totals in
  let totals :=
    LineItemTotals.with_original_total
      (LineItemTotals.original_total totals
       + LineItemTotals.original_tax_total totals) totals in
  ret totals.

(** [calculationContext.allocation_map[id]?.discount?.unit_amount || 0] *)
Definition allocated_unit_amount
    (calculationContext : TaxCalculationContext.t) (id : string) : float :=
  or_zero
    (a ← TaxCalculationContext.allocation_map calculationContext !! id;
     d ← discount a;
     unit_amount d).

Definition getLineItemRefundLegacy
    (lineItem : LineItem.t)
    (calculationContext : TaxCalculationContext.t)
    (taxRate : float)
  : float :=
  let includesTax := taxInclusivePricing && LineItem.includes_tax lineItem in
  let taxAmountIncludedInPrice :=
    if negb includesTax then 0
    else Math_round
           (calculatePriceTaxAmount (LineItem.unit_price lineItem)
              (taxRate / 100) includesTax) in
  let discountAmount :=
    allocated_unit_amount calculationContext (LineItem.id lineItem)
    * LineItem.quantity lineItem in
  let lineSubtotal :=
    (LineItem.unit_price lineItem - taxAmountIncludedInPrice)
    * LineItem.quantity lineItem - discountAmount in
  Math_round (lineSubtotal * (1 + taxRate / 100)).

Definition getLineItemRefund
    (lineItem : LineItem.t)
    (calculationContext : TaxCalculationContext.t)
    (taxRate : option float)
  : Result float :=
  match taxRate with
  | Some taxRate =>
      ret (getLineItemRefundLegacy lineItem calculationContext taxRate)
  | None =>
      let includesTax := taxInclusivePricing && LineItem.includes_tax lineItem in
      let discountAmount :=
        allocated_unit_amount calculationContext (LineItem.id lineItem)
        * LineItem.quantity lineItem in
      match LineItem.tax_lines lineItem with
      | None => throw refund_tax_lines_missing
      | Some tax_lines =>
          let totalTaxRate :=
            fold_left (fun acc next => acc + rate next / 100) tax_lines 0 in
          let taxAmountIncludedInPrice :=
            if negb includesTax then 0
            else Math_round
                   (calculatePriceTaxAmount (LineItem.unit_price lineItem)
                      totalTaxRate includesTax) in
          let lineSubtotal :=
            (LineItem.unit_price lineItem - taxAmountIncludedInPrice)
            * LineItem.quantity lineItem - discountAmount in
          let taxTotal :=
            fold_left
              (fun acc next =>
                 acc + Math_round (lineSubtotal * (rate next / 100)))
              tax_lines 0 in
          ret (lineSubtotal + taxTotal)
      end
  end.

End Methods.

(** The callback of the [reduce] over the transactions. *)
Definition giftCardTransactionStep
    (region : option Region)
    (acc : GiftCardTotals.t)
    (next : GiftCardTransaction.t)
  : GiftCardTotals.t :=
  let taxMultiplier := or_zero (GiftCardTransaction.tax_rate next) / 100 in
  let taxMultiplier :=
    match GiftCardTransaction.is_taxable next, region with
    | None, Some r =>
        if gift_cards_taxable r then tax_rate r / 100 else taxMultiplier
    | _, _ => taxMultiplier
    end in
  {| GiftCardTotals.total :=
       GiftCardTotals.total acc + GiftCardTransaction.amount next;
     GiftCardTotals.tax_total :=
       GiftCardTotals.tax_total acc
       + GiftCardTransaction.amount next * taxMultiplier |}.

Definition getGiftCardTransactionsTotals
    (giftCardTransactions : list GiftCardTransaction.t)
    (region : option Region)
  : GiftCardTotals.t :=
  fold_left (giftCardTransactionStep region) giftCardTransactions
    {| GiftCardTotals.total := 0; GiftCardTotals.tax_total := 0 |}.

Definition getGiftCardTotals
    (giftCardableAmount : float)
    (giftCardTransactions : option (list GiftCardTransaction.t))
    (region : option Region)
    (giftCards : option (list GiftCard))
  : GiftCardTotals.t :=
  match giftCardTransactions with
  | Some giftCardTransactions =>
      getGiftCardTransactionsTotals giftCardTransactions region
  | None =>
      let result := {| GiftCardTotals.total := 0; GiftCardTotals.tax_total := 0 |} in
      match giftCards with
      | None | Some [] => result
      | Some giftCards =>
          let giftAmount :=
            fold_left (fun acc next => acc + balance next) giftCards 0 in
          let result :=
            {| GiftCardTotals.total := Math_min giftCardableAmount giftAmount;
               GiftCardTotals.tax_total := GiftCardTotals.tax_total result |} in
          match region with
          | Some r =>
              if gift_cards_taxable r then
                {| GiftCardTotals.total := GiftCardTotals.total result;
                   GiftCardTotals.tax_total :=
                     Math_round
                       ((GiftCardTotals.total result * tax_rate r) / 100) |}
              else result
          | None => result
          end
      end
  end.

(** [taxRate] is declared a number; the shipping batch calls the method
    with an options object that has no such key, hence the [option]. *)
Definition getShippingMethodTotalsLegacy
    (shippingMethod : ShippingMethod.t)
    (calculationContext : TaxCalculationContext.t)
    (discounts : option (list Discount))
    (taxRate : option float)
  : Result ShippingMethodTotals.t :=
  let totals :=
    {| ShippingMethodTotals.price := ShippingMethod.price shippingMethod;
       ShippingMethodTotals.original_total := ShippingMethod.price shippingMethod;
       ShippingMethodTotals.total := ShippingMethod.price shippingMethod;
       ShippingMethodTotals.subtotal := ShippingMethod.price shippingMethod;
       ShippingMethodTotals.original_tax_total := 0;
       ShippingMethodTotals.tax_total := 0;
       ShippingMethodTotals.tax_lines := ShippingMethod.tax_lines shippingMethod |} in
  let totals :=
    ShippingMethodTotals.with_original_tax_total
      (Math_round (ShippingMethodTotals.price totals * (of_opt taxRate / 100)))
      totals in
  let totals :=
    ShippingMethodTotals.with_tax_total
      (Math_round (ShippingMethodTotals.price totals * (of_opt taxRate / 100)))
      totals in
  ret totals.

(** The usual price/tax helper, for evaluating the methods on inputs. *)
Definition priceTaxAmount (price taxRate : float) (includesTax : bool) : float :=
  if includesTax then (taxRate * price) / (1 + taxRate) else price * taxRate.

Definition sample_pricing (flag : bool) : Pricing :=
  {| isFeatureEnabled := fun _ => flag;
     TaxInclusivePricingFeatureFlag_key := "tax_inclusive_pricing";
     calculatePriceTaxAmount := priceTaxAmount |}.

Definition sample_context : TaxCalculationContext.t :=
  {| TaxCalculationContext.allocation_map := ∅;
     TaxCalculationContext.region := Some (mkRegion 10 true);
     TaxCalculationContext.shipping_methods := [] |}.

Definition sample_item
    (price qty : float) (inclusive : bool) (lines : option (list TaxLine))
  : LineItem.t :=
  LineItem.mk "item_1" price qty inclusive lines.

Definition vat (r : float) : TaxLine := {| rate := r; code := "vat" |}.

End Double.

(** * Properties *)

(** ** Arithmetic of the embedding *)

Lemma Qc_differ (x y : Qc) : Qeq_bool x y = false -> x <> y.
Proof.
  intros Hb ->. rewrite (proj2 (Qeq_bool_iff y y)) in Hb; [discriminate|reflexivity].
Qed.

Ltac qc_same := apply Qc_is_canon; vm_compute; reflexivity.
Ltac qc_differ := apply Qc_differ; vm_compute; reflexivity.

Lemma truthy_zero : JS.truthy 0 = false.
Proof. reflexivity. Qed.

Lemma truthy_false_iff (q : Qc) : JS.truthy q = false <-> q = 0.
Proof.
  unfold JS.truthy. rewrite negb_false_iff, Z.eqb_eq. split.
  - intros Hn. apply Qc_is_canon. unfold Qeq. rewrite Hn. reflexivity.
  - intros ->. reflexivity.
Qed.

Lemma or_zero_Some (q : Qc) : JS.or_zero (Some q) = q.
Proof.
  unfold JS.or_zero. destruct (JS.truthy q) eqn:E; [reflexivity|].
  symmetry. by apply truthy_false_iff.
Qed.

Lemma Math_round_integer (x : Qc) : is_integer (JS.Math_round x).
Proof. by exists (Qfloor (x + Q2Qc (1 # 2))). Qed.

Lemma Math_min_le_l (a b : Qc) : JS.Math_min a b ≤ a.
Proof.
  unfold JS.Math_min. destruct (a ?= b) eqn:E; try apply Qcle_refl.
  apply Qclt_le_weak, Qcgt_alt. exact E.
Qed.

Lemma Math_min_cases (a b : Qc) : JS.Math_min a b = a \/ JS.Math_min a b = b.
Proof. unfold JS.Math_min. destruct (a ?= b); auto. Qed.

Lemma fold_left_sum_of {A} (f : A -> Qc) (l : list A) (acc : Qc) :
  fold_left (fun acc x => acc + f x) l acc = acc + sum_of f l.
Proof.
  revert acc. induction l as [|x l IH]; intros acc; simpl.
  - ring.
  - rewrite IH. ring.
Qed.

Lemma coalesce_effective (taxLines own : option (list TaxLine)) :
  default [] (coalesce taxLines own) = effective_tax_lines taxLines own.
Proof. destruct taxLines, own; reflexivity. Qed.

Lemma hasFreeShipping_true (discounts : option (list Discount)) :
  free_shipping_applies discounts -> hasFreeShipping discounts = true.
Proof.
  intros (ds & d & -> & Hin & Hty). simpl.
  apply existsb_exists. exists d. split.
  - by apply list_elem_of_In.
  - rewrite Hty. reflexivity.
Qed.

Lemma hasFreeShipping_false (discounts : option (list Discount)) :
  ~ free_shipping_applies discounts -> hasFreeShipping discounts = false.
Proof.
  intros Hn. destruct (hasFreeShipping discounts) eqn:E; [|reflexivity].
  exfalso. apply Hn. destruct discounts as [ds|]; [|discriminate].
  simpl in E. apply existsb_exists in E as (d & Hin & Hty).
  exists ds, d. repeat split; [by apply list_elem_of_In|].
  by destruct (type (rule d)).
Qed.

Lemma length_eqb_nil {A} (l : list A) : (length l =? 0)%nat = true <-> l = [].
Proof. destruct l; simpl; split; intros; congruence. Qed.

(** ** Current-path totals *)

Section CurrentPath.

Context `{caps : Capabilities}.

(** Without tax lines the strategy is not consulted: the record is the
    baseline one. *)
Lemma getLineItemTotals_no_tax_lines item includeTax alloc taxLines ctx :
  effective_tax_lines taxLines (LineItem.tax_lines item) = [] ->
  JS.truthy_flag includeTax = false ->
  exists t,
    getLineItemTotals item includeTax alloc taxLines ctx = inr t
    /\ LineItemTotals.tax_total t = 0
    /\ LineItemTotals.original_tax_total t = 0
    /\ LineItemTotals.subtotal t =
         (if taxInclusivePricing && LineItem.includes_tax item then 0
          else LineItem.unit_price item * LineItem.quantity item)
    /\ LineItemTotals.total t =
         LineItemTotals.subtotal t
         - discount_unit_amount alloc * LineItem.quantity item
    /\ LineItemTotals.original_total t = LineItemTotals.subtotal t.
Proof.
  intros Hl Hi. unfold getLineItemTotals.
  rewrite coalesce_effective, Hl, Hi. simpl.
  eexists. split; [reflexivity|]. simpl. repeat split; reflexivity.
Qed.

(** The baseline identity of the current line-item path. *)
Lemma getLineItemTotals_baseline item includeTax alloc taxLines ctx t :
  getLineItemTotals item includeTax alloc taxLines ctx = inr t ->
  LineItemTotals.original_total t =
    LineItemTotals.subtotal t + LineItemTotals.original_tax_total t.
Proof.
  unfold getLineItemTotals.
  destruct (JS.truthy_flag includeTax && _); [discriminate|].
  destruct (0 <? _)%nat.
  - destruct (calculate _ _ ctx) as [e|tax]; [discriminate|]. simpl.
    destruct (calculate _ _ _) as [e|otax]; [discriminate|]. simpl.
    destruct (taxInclusivePricing && LineItem.includes_tax item);
      intros [= <-]; simpl; ring.
  - intros [= <-]. simpl.
    destruct (taxInclusivePricing && LineItem.includes_tax item); ring.
Qed.

(** What the current shipping path returns, field by field. *)
Lemma getShippingMethodTotals_inv sm includeTax ctx taxLines discounts t :
  getShippingMethodTotals sm includeTax ctx taxLines discounts = inr t ->
  exists tax : Qc,
    ShippingMethodTotals.price t = JS.Num (ShippingMethod.price sm)
    /\ ShippingMethodTotals.original_tax_total t = JS.Num tax
    /\ ShippingMethodTotals.original_total t =
         (if taxInclusivePricing && ShippingMethod.includes_tax sm
          then JS.Num (ShippingMethod.price sm)
          else JS.Num (ShippingMethod.price sm + tax))
    /\ (hasFreeShipping discounts = true ->
          ShippingMethodTotals.total t = JS.Num 0
          /\ ShippingMethodTotals.subtotal t = JS.Num 0
          /\ ShippingMethodTotals.tax_total t = JS.Num 0)
    /\ (hasFreeShipping discounts = false ->
          ShippingMethodTotals.tax_total t = JS.Num tax
          /\ ShippingMethodTotals.subtotal t =
               (if taxInclusivePricing && ShippingMethod.includes_tax sm
                then JS.Num (ShippingMethod.price sm - tax)
                else JS.Num (ShippingMethod.price sm))
          /\ ShippingMethodTotals.total t =
               (if taxInclusivePricing && ShippingMethod.includes_tax sm
                then JS.Num (ShippingMethod.price sm)
                else JS.Num (ShippingMethod.price sm + tax))).
Proof.
  unfold getShippingMethodTotals.
  destruct (JS.truthy_flag includeTax && _); [discriminate|].
  destruct (calculate _ _ _) as [e|tax]; [discriminate|]. simpl.
  intros [= <-]. exists tax.
  destruct (taxInclusivePricing && ShippingMethod.includes_tax sm),
    (hasFreeShipping discounts); simpl;
    repeat split; intros; try discriminate; repeat split; reflexivity.
Qed.

End CurrentPath.

Section CurrentPathClaims.

Context `{caps : Capabilities}.

(** C2.  A current-path computation asked to include tax
    ([includeTax = true]) while the effective tax-line list (the supplied
    override, else the entity's own tax lines, else the empty list) is
    empty raises the missing-tax-lines error, for a line item and for a
    shipping method alike; no totals record is returned. *)
Theorem C2_missing_tax_lines_error :
  (forall item includeTax alloc taxLines ctx,
      includeTax = Some true ->
      effective_tax_lines taxLines (LineItem.tax_lines item) = [] ->
      getLineItemTotals item includeTax alloc taxLines ctx
      = inl tax_lines_must_be_joined)
  /\ (forall sm includeTax ctx taxLines discounts,
      includeTax = Some true ->
      effective_tax_lines taxLines (ShippingMethod.tax_lines sm) = [] ->
      getShippingMethodTotals sm includeTax ctx taxLines discounts
      = inl tax_lines_must_be_joined).
Proof.
  split.
  - intros item includeTax alloc taxLines ctx -> Hl.
    unfold getLineItemTotals. rewrite coalesce_effective, Hl. reflexivity.
  - intros sm includeTax ctx taxLines discounts -> Hl.
    unfold getShippingMethodTotals. rewrite coalesce_effective, Hl. reflexivity.
Qed.

(** C3.  When some discount of the supplied set has rule type
    FREE_SHIPPING, the record the current shipping path returns has [total],
    [subtotal] and [tax_total] equal to zero, whatever the price, the tax
    lines and the tax-inclusive flag.  The path returns no record only when
    it raises the missing-tax-lines error or when the tax calculation
    strategy itself fails. *)
Theorem C3_free_shipping_zeroes sm includeTax ctx taxLines discounts :
  free_shipping_applies discounts ->
  match getShippingMethodTotals sm includeTax ctx taxLines discounts with
  | inr t =>
      ShippingMethodTotals.total t = JS.Num 0
      /\ ShippingMethodTotals.subtotal t = JS.Num 0
      /\ ShippingMethodTotals.tax_total t = JS.Num 0
  | inl e =>
      (e = tax_lines_must_be_joined
       /\ includeTax = Some true
       /\ effective_tax_lines taxLines (ShippingMethod.tax_lines sm) = [])
      \/ calculate [] (effective_tax_lines taxLines (ShippingMethod.tax_lines sm))
           (TaxCalculationContext.with_shipping_methods [sm] ctx) = inl e
  end.
Proof.
  intros Hfree.
  destruct (getShippingMethodTotals sm includeTax ctx taxLines discounts)
    as [e|t] eqn:Hret.
  - revert Hret. unfold getShippingMethodTotals. rewrite coalesce_effective.
    destruct (JS.truthy_flag includeTax && _) eqn:Hguard.
    + intros [= <-]. left. apply andb_true_iff in Hguard as [Hinc Hlen].
      apply length_eqb_nil in Hlen.
      destruct includeTax as [[]|]; try discriminate. auto.
    + destruct (calculate _ _ _) as [e'|tax]; [|discriminate].
      intros [= <-]. right. reflexivity.
  - apply getShippingMethodTotals_inv in Hret as (tax & _ & _ & _ & Hz & _).
    apply Hz. by apply hasFreeShipping_true.
Qed.

(** C7, as amended.  For a line item with zero discount allocation and no
    effective tax line, the current path called without [includeTax]
    returns a record with [tax_total = 0] and with
    [total = unit_price * quantity], unless tax-inclusive pricing applies
    to the item (flag enabled and [includes_tax]), where [total = 0]. *)
Theorem C7_no_discount_no_tax_lines item includeTax alloc taxLines ctx :
  discount_unit_amount alloc = 0 ->
  effective_tax_lines taxLines (LineItem.tax_lines item) = [] ->
  JS.truthy_flag includeTax = false ->
  exists t,
    getLineItemTotals item includeTax alloc taxLines ctx = inr t
    /\ LineItemTotals.tax_total t = 0
    /\ LineItemTotals.total t =
         (if taxInclusivePricing && LineItem.includes_tax item then 0
          else LineItem.unit_price item * LineItem.quantity item).
Proof.
  intros Hd Hl Hi.
  destruct (getLineItemTotals_no_tax_lines item includeTax alloc taxLines ctx Hl Hi)
    as (t & Hret & Htax & _ & Hsub & Htot & _).
  exists t. repeat split; [exact Hret|exact Htax|].
  rewrite Htot, Hsub, Hd. ring.
Qed.

End CurrentPathClaims.

(** ** Flat-rate (legacy) totals *)

Section LegacyPath.

Context `{caps : Capabilities}.

(** The legacy line-item path always returns, and this is its record. *)
Lemma getLineItemTotalsLegacy_inv item taxRate alloc ctx :
  exists t,
    getLineItemTotalsLegacy item taxRate alloc ctx = inr t
    /\ LineItemTotals.subtotal t =
         (LineItem.unit_price item - taxIncludedInPrice item taxRate)
         * LineItem.quantity item
    /\ LineItemTotals.discount_total t =
         discount_unit_amount alloc * LineItem.quantity item
    /\ LineItemTotals.original_tax_total t =
         LineItemTotals.subtotal t * (taxRate / int 100)
    /\ LineItemTotals.tax_total t =
         (LineItemTotals.subtotal t - LineItemTotals.discount_total t)
         * (taxRate / int 100)
    /\ LineItemTotals.total t =
         LineItemTotals.subtotal t + LineItemTotals.tax_total t
    /\ LineItemTotals.original_total t =
         (if taxInclusivePricing && LineItem.includes_tax item then 0
          else LineItem.unit_price item * LineItem.quantity item)
         + LineItemTotals.original_tax_total t.
Proof.
  unfold getLineItemTotalsLegacy, taxIncludedInPrice. eexists.
  split; [reflexivity|]. simpl.
  destruct (LineItem.includes_tax item); simpl; repeat split; reflexivity.
Qed.

(** The legacy shipping path always returns; with a rate it is this
    record. *)
Lemma getShippingMethodTotalsLegacy_inv sm ctx discounts (taxRate : Qc) :
  exists t,
    getShippingMethodTotalsLegacy sm ctx discounts (Some taxRate) = inr t
    /\ ShippingMethodTotals.price t = JS.Num (ShippingMethod.price sm)
    /\ ShippingMethodTotals.subtotal t = JS.Num (ShippingMethod.price sm)
    /\ ShippingMethodTotals.total t = JS.Num (ShippingMethod.price sm)
    /\ ShippingMethodTotals.original_total t = JS.Num (ShippingMethod.price sm)
    /\ ShippingMethodTotals.tax_total t =
         JS.Num (JS.Math_round (ShippingMethod.price sm * (taxRate / int 100)))
    /\ ShippingMethodTotals.original_tax_total t =
         JS.Num (JS.Math_round (ShippingMethod.price sm * (taxRate / int 100))).
Proof.
  unfold getShippingMethodTotalsLegacy. eexists.
  split; [reflexivity|]. simpl. repeat split; reflexivity.
Qed.

(** Called without a rate, as the batch entry point does, the legacy
    shipping path returns [NaN] for both tax fields. *)
Lemma getShippingMethodTotalsLegacy_no_rate sm ctx discounts :
  exists t,
    getShippingMethodTotalsLegacy sm ctx discounts None = inr t
    /\ ShippingMethodTotals.tax_total t = JS.NaN
    /\ ShippingMethodTotals.original_tax_total t = JS.NaN
    /\ ShippingMethodTotals.total t = JS.Num (ShippingMethod.price sm).
Proof.
  unfold getShippingMethodTotalsLegacy. eexists.
  split; [reflexivity|]. simpl. repeat split; reflexivity.
Qed.

End LegacyPath.

Section BaselineClaim.

Context `{caps : Capabilities}.

(** C1, as amended.  [original_total = subtotal + original_tax_total] holds
    for the record of every line item under the current path, of every line
    item under the legacy path whose price does not include tax, and of
    every shipping method under the current path when no FREE_SHIPPING
    discount is supplied.  Under a FREE_SHIPPING discount the current
    shipping path returns [subtotal = 0] and keeps the undiscounted
    [original_total]. *)
Theorem C1_original_total_baseline :
  (forall item includeTax alloc taxLines ctx t,
      getLineItemTotals item includeTax alloc taxLines ctx = inr t ->
      LineItemTotals.original_total t =
        LineItemTotals.subtotal t + LineItemTotals.original_tax_total t)
  /\ (forall item taxRate alloc ctx,
      LineItem.includes_tax item = false ->
      exists t,
        getLineItemTotalsLegacy item taxRate alloc ctx = inr t
        /\ LineItemTotals.original_total t =
             LineItemTotals.subtotal t + LineItemTotals.original_tax_total t)
  /\ (forall sm includeTax ctx taxLines discounts t,
      ~ free_shipping_applies discounts ->
      getShippingMethodTotals sm includeTax ctx taxLines discounts = inr t ->
      ShippingMethodTotals.original_total t =
        (ShippingMethodTotals.subtotal t
         + ShippingMethodTotals.original_tax_total t)%num)
  /\ (forall sm includeTax ctx taxLines discounts t,
      free_shipping_applies discounts ->
      getShippingMethodTotals sm includeTax ctx taxLines discounts = inr t ->
      ShippingMethodTotals.subtotal t = JS.Num 0
      /\ ShippingMethodTotals.original_total t =
           (if taxInclusivePricing && ShippingMethod.includes_tax sm
            then ShippingMethodTotals.price t
            else (ShippingMethodTotals.price t
                  + ShippingMethodTotals.original_tax_total t)%num)).
Proof.
  split; [|split; [|split]].
  - intros item includeTax alloc taxLines ctx t.
    apply getLineItemTotals_baseline.
  - intros item taxRate alloc ctx Hex.
    destruct (getLineItemTotalsLegacy_inv item taxRate alloc ctx)
      as (t & Hret & Hsub & _ & _ & _ & _ & Horig).
    exists t. split; [exact Hret|].
    rewrite Horig, Hsub. unfold taxIncludedInPrice. rewrite Hex.
    rewrite andb_false_r. ring.
  - intros sm includeTax ctx taxLines discounts t Hno Hret.
    apply getShippingMethodTotals_inv in Hret
      as (tax & _ & Hott & Horig & _ & Hpaid).
    destruct (Hpaid (hasFreeShipping_false _ Hno)) as (_ & Hsub & _).
    rewrite Horig, Hsub, Hott.
    destruct (taxInclusivePricing && ShippingMethod.includes_tax sm); simpl;
      f_equal; ring.
  - intros sm includeTax ctx taxLines discounts t Hfree Hret.
    apply getShippingMethodTotals_inv in Hret
      as (tax & Hprice & Hott & Horig & Hzero & _).
    destruct (Hzero (hasFreeShipping_true _ Hfree)) as (_ & Hsub & _).
    split; [exact Hsub|].
    rewrite Horig, Hprice, Hott.
    destruct (taxInclusivePricing && ShippingMethod.includes_tax sm); reflexivity.
Qed.

End BaselineClaim.

(** ** Gift cards *)

Lemma giftCardTransactionStep_multiplier region acc next :
  giftCardTransactionStep region acc next =
  {| GiftCardTotals.total :=
       GiftCardTotals.total acc + GiftCardTransaction.amount next;
     GiftCardTotals.tax_total :=
       GiftCardTotals.tax_total acc + gift_card_tax_contribution region next |}.
Proof.
  unfold giftCardTransactionStep, gift_card_tax_contribution,
    gift_card_tax_multiplier.
  destruct (GiftCardTransaction.is_taxable next), region as [r|];
    try destruct (gift_cards_taxable r); reflexivity.
Qed.

Lemma fold_giftCardTransactionStep region l acc :
  fold_left (giftCardTransactionStep region) l acc =
  {| GiftCardTotals.total :=
       GiftCardTotals.total acc + sum_of GiftCardTransaction.amount l;
     GiftCardTotals.tax_total :=
       GiftCardTotals.tax_total acc
       + sum_of (gift_card_tax_contribution region) l |}.
Proof.
  revert acc. induction l as [|t l IH]; intros acc; simpl.
  - destruct acc as [a b]. simpl. f_equal; ring.
  - rewrite IH, giftCardTransactionStep_multiplier. simpl. f_equal; ring.
Qed.

(** ** Refunds *)

Section Refund.

Context `{caps : Capabilities}.

(** The current-path refund of a line item whose tax lines are defined. *)
Lemma getLineItemRefund_current lineItem ctx lines :
  LineItem.tax_lines lineItem = Some lines ->
  getLineItemRefund lineItem ctx None
  = inr (refundSubtotal lineItem ctx lines
         + sum_of
             (fun l =>
                JS.Math_round (refundSubtotal lineItem ctx lines * (rate l / int 100)))
             lines).
Proof.
  intros Hl. unfold getLineItemRefund. rewrite Hl.
  rewrite (fold_left_sum_of (fun l => rate l / int 100) lines 0).
  replace (0 + sum_of (fun l => rate l / int 100) lines)
    with (sum_of (fun l => rate l / int 100) lines) by ring.
  set (sub := (_ - _ * _)).
  assert (Hsub : sub = refundSubtotal lineItem ctx lines).
  { subst sub. unfold refundSubtotal, embeddedTax.
    destruct (taxInclusivePricing && LineItem.includes_tax lineItem); reflexivity. }
  rewrite (fold_left_sum_of (fun l => JS.Math_round (sub * (rate l / int 100))) lines 0).
  rewrite Hsub. unfold ret. f_equal. ring.
Qed.

(** C9.  With no flat [taxRate], [getLineItemRefund] on a line item whose
    [tax_lines] is undefined raises the missing-tax-lines-on-refund error,
    whether or not the price includes tax; on an empty list of tax lines it
    returns the line subtotal, with no tax added.  The error is not the
    missing-tax-lines error of the totals computations. *)
Theorem C9_refund_undefined_tax_lines lineItem ctx :
  (LineItem.tax_lines lineItem = None ->
     getLineItemRefund lineItem ctx None = inl refund_tax_lines_missing)
  /\ (LineItem.tax_lines lineItem = Some [] ->
     getLineItemRefund lineItem ctx None
     = inr ((LineItem.unit_price lineItem - embeddedTax lineItem [])
            * LineItem.quantity lineItem
            - allocated_unit_amount ctx (LineItem.id lineItem)
              * LineItem.quantity lineItem))
  /\ refund_tax_lines_missing <> tax_lines_must_be_joined.
Proof.
  split; [|split].
  - intros Hl. unfold getLineItemRefund. rewrite Hl. reflexivity.
  - intros Hl. rewrite (getLineItemRefund_current lineItem ctx [] Hl).
    simpl. f_equal. unfold refundSubtotal. ring.
  - discriminate.
Qed.

End Refund.

(** ** Dispatch between the two paths *)

(** The loop of a batch entry point: every call succeeded, and the entry of
    an entity whose id is not repeated is the record computed for it. *)
Lemma forOf_insert {A V} (key : A -> string) (f : A -> Result V)
    (l : list A) (m0 m : gmap string V) :
  forOf (fun acc x => await v <- f x; ret (<[key x := v]> acc)) l m0 = inr m ->
  (forall k, k ∉ (key <$> l) -> m !! k = m0 !! k)
  /\ (NoDup (key <$> l) ->
      forall x, x ∈ l -> exists v, f x = inr v /\ m !! key x = Some v).
Proof.
  revert m0. induction l as [|a l IH]; intros m0; simpl.
  - intros [= <-]. split; [reflexivity|]. intros _ x Hx. inversion Hx.
  - destruct (f a) as [e|v] eqn:Ea; simpl; [discriminate|].
    intros Hloop. destruct (IH _ Hloop) as [Hout Hin]. split.
    + intros k Hk. rewrite not_elem_of_cons in Hk. destruct Hk as [Hne Hk].
      rewrite (Hout k Hk). by rewrite lookup_insert_ne.
    + intros Hnd x Hx. apply NoDup_cons in Hnd as [Hfresh Hnd].
      apply elem_of_cons in Hx as [->|Hx].
      * exists v. split; [exact Ea|].
        rewrite (Hout _ Hfresh). by rewrite lookup_insert_eq.
      * exact (Hin Hnd x Hx).
Qed.

Section Dispatch.

Context `{caps : Capabilities}.

Lemma getLineItemsTotals_truthy items includeTax ctx r useExisting :
  r <> 0 ->
  getLineItemsTotals items includeTax ctx (Some r) useExisting
  = forOf
      (fun acc item =>
         await v <- getLineItemTotalsLegacy item r (allocation_of ctx item) ctx;
         ret (<[LineItem.id item := v]> acc))
      items ∅.
Proof.
  intros Hr. unfold getLineItemsTotals. simpl.
  destruct (JS.truthy r) eqn:Et; [reflexivity|].
  apply truthy_false_iff in Et. contradiction.
Qed.

Lemma getLineItemsTotals_falsy items includeTax ctx taxRate useExisting m :
  JS.truthy_opt taxRate = false ->
  getLineItemsTotals items includeTax ctx taxRate useExisting = inr m ->
  exists taxLinesMap : gmap string (list TaxLine),
    forOf
      (fun acc item =>
         await v <-
           getLineItemTotals item None (allocation_of ctx item)
             (taxLinesMap !! LineItem.id item) ctx;
         ret (<[LineItem.id item := v]> acc))
      items ∅ = inr m.
Proof.
  intros Hf. unfold getLineItemsTotals. rewrite Hf.
  match goal with |- bind ?c _ = _ -> _ => destruct c as [e|tl] end;
    simpl; [discriminate|].
  intros Hloop. exists tl.
  destruct taxRate as [r|]; simpl in Hf; [rewrite Hf in Hloop|]; exact Hloop.
Qed.

Lemma getShippingMethodsTotals_truthy sms includeTax discounts ctx r useExisting :
  r <> 0 ->
  getShippingMethodsTotals sms includeTax discounts (Some r) ctx useExisting
  = forOf
      (fun acc sm =>
         await v <- getShippingMethodTotalsLegacy sm ctx discounts None;
         ret (<[ShippingMethod.id sm := v]> acc))
      sms ∅.
Proof.
  intros Hr. unfold getShippingMethodsTotals. simpl.
  destruct (JS.truthy r) eqn:Et; [reflexivity|].
  apply truthy_false_iff in Et. contradiction.
Qed.

Lemma getShippingMethodsTotals_falsy sms includeTax discounts ctx taxRate useExisting m :
  JS.truthy_opt taxRate = false ->
  getShippingMethodsTotals sms includeTax discounts taxRate ctx useExisting = inr m ->
  exists taxLinesMap : gmap string (list TaxLine),
    forOf
      (fun acc sm =>
         await v <-
           getShippingMethodTotals sm includeTax ctx
             (taxLinesMap !! ShippingMethod.id sm) discounts;
         ret (<[ShippingMethod.id sm := v]> acc))
      sms ∅ = inr m.
Proof.
  intros Hf. unfold getShippingMethodsTotals. rewrite Hf.
  match goal with |- bind ?c _ = _ -> _ => destruct c as [e|tl] end;
    simpl; [discriminate|].
  intros Hloop. exists tl. exact Hloop.
Qed.

(** Through the batch entry point the flat rate never reaches the legacy
    shipping computation: every record has [NaN] tax fields. *)
Lemma getShippingMethodsTotals_legacy_tax_NaN
    sms includeTax discounts ctx r useExisting m :
  r <> 0 ->
  getShippingMethodsTotals sms includeTax discounts (Some r) ctx useExisting = inr m ->
  NoDup (ShippingMethod.id <$> sms) ->
  forall sm, sm ∈ sms ->
    exists t,
      m !! ShippingMethod.id sm = Some t
      /\ ShippingMethodTotals.tax_total t = JS.NaN
      /\ ShippingMethodTotals.original_tax_total t = JS.NaN.
Proof.
  intros Hr Hret Hnd sm Hsm.
  rewrite getShippingMethodsTotals_truthy in Hret by exact Hr.
  apply (forOf_insert ShippingMethod.id
           (fun sm => getShippingMethodTotalsLegacy sm ctx discounts None))
    in Hret as [_ Hin].
  destruct (Hin Hnd sm Hsm) as (t & Ht & Hm).
  destruct (getShippingMethodTotalsLegacy_no_rate sm ctx discounts)
    as (t' & Ht' & Htax & Hott & _).
  rewrite Ht in Ht'. injection Ht' as <-. eauto.
Qed.

(** The method a line-item batch applies to an item, given the map of tax
    lines it gathered. *)
Lemma getLineItemsTotals_shape items includeTax ctx taxRate useExisting :
  (exists e,
      getTaxLinesMap items ctx = inl e
      /\ getLineItemsTotals items includeTax ctx taxRate useExisting = inl e)
  \/ exists taxLinesMap : gmap string (list TaxLine),
      getLineItemsTotals items includeTax ctx taxRate useExisting
      = forOf
          (fun acc item =>
             await v <-
               (if JS.truthy_opt taxRate then
                  getLineItemTotalsLegacy item (default 0 taxRate)
                    (allocation_of ctx item) ctx
                else
                  getLineItemTotals item None (allocation_of ctx item)
                    (taxLinesMap !! LineItem.id item) ctx);
             ret (<[LineItem.id item := v]> acc))
          items ∅.
Proof.
  unfold getLineItemsTotals.
  assert (Hbody : forall tl : gmap string (list TaxLine),
    forOf
      (fun (itemsTotals : gmap string LineItemTotals.t) item =>
         let lineItemAllocation :=
           default no_allocation
             (TaxCalculationContext.allocation_map ctx !! LineItem.id item) in
         await totals <-
           match taxRate with
           | Some r =>
               if JS.truthy r then
                 getLineItemTotalsLegacy item r lineItemAllocation ctx
               else getLineItemTotals item None lineItemAllocation
                      (tl !! LineItem.id item) ctx
           | None =>
               getLineItemTotals item None lineItemAllocation
                 (tl !! LineItem.id item) ctx
           end;
         ret (<[LineItem.id item := totals]> itemsTotals)) items ∅
    = forOf
        (fun acc item =>
           await v <-
             (if JS.truthy_opt taxRate then
                getLineItemTotalsLegacy item (default 0 taxRate)
                  (allocation_of ctx item) ctx
              else
                getLineItemTotals item None (allocation_of ctx item)
                  (tl !! LineItem.id item) ctx);
           ret (<[LineItem.id item := v]> acc))
        items ∅).
  { intros tl. destruct taxRate as [r|]; simpl; [|reflexivity].
    destruct (JS.truthy r); reflexivity. }
  destruct (negb (JS.truthy_opt taxRate) && JS.truthy_flag includeTax);
    [|right; eexists; apply Hbody].
  destruct (JS.truthy_flag useExisting); [right; eexists; apply Hbody|].
  destruct (0 <? length items)%nat; [|right; eexists; apply Hbody].
  destruct (getTaxLinesMap items ctx) as [e|maps] eqn:Emaps.
  - left. exists e. auto.
  - right. exists (lineItemsTaxLines maps). apply Hbody.
Qed.

Lemma getShippingMethodsTotals_shape
    sms includeTax discounts taxRate ctx useExisting :
  (exists e,
      getTaxLinesMap [] ctx = inl e
      /\ getShippingMethodsTotals sms includeTax discounts taxRate ctx useExisting
         = inl e)
  \/ exists taxLinesMap : gmap string (list TaxLine),
      getShippingMethodsTotals sms includeTax discounts taxRate ctx useExisting
      = forOf
          (fun acc sm =>
             await v <-
               (if JS.truthy_opt taxRate then
                  getShippingMethodTotalsLegacy sm ctx discounts None
                else
                  getShippingMethodTotals sm includeTax ctx
                    (taxLinesMap !! ShippingMethod.id sm) discounts);
             ret (<[ShippingMethod.id sm := v]> acc))
          sms ∅.
Proof.
  unfold getShippingMethodsTotals.
  destruct (negb (JS.truthy_opt taxRate) && JS.truthy_flag includeTax);
    [|right; eexists; reflexivity].
  destruct (JS.truthy_flag useExisting); [right; eexists; reflexivity|].
  destruct (0 <? length sms)%nat; [|right; eexists; reflexivity].
  destruct (getTaxLinesMap [] ctx) as [e|maps] eqn:Emaps.
  - left. exists e. auto.
  - right. exists (shippingMethodsTaxLines maps). reflexivity.
Qed.

End Dispatch.

Section DispatchClaim.

Context `{caps : Capabilities}.

(** C10.  The batch entry points take the legacy path exactly for a truthy
    [taxRate].  With a non-zero rate [getLineItemsTotals] is the loop of the
    legacy line-item computation at that rate, and
    [getShippingMethodsTotals] the loop of the legacy shipping computation.
    With [taxRate] absent or zero each of them is the loop of the current
    computation over the tax lines it gathered, unless the tax line provider
    rejected, and a zero rate gives the very result of an absent one.  The
    entries of a returned map are the records of the path taken.
    [getLineItemRefund] takes the legacy path for every non-null [taxRate],
    zero included. *)
Theorem C10_dispatch_on_tax_rate :
  (forall items includeTax ctx r useExisting,
      r <> 0 ->
      getLineItemsTotals items includeTax ctx (Some r) useExisting
      = forOf
          (fun acc item =>
             await v <-
               getLineItemTotalsLegacy item r (allocation_of ctx item) ctx;
             ret (<[LineItem.id item := v]> acc))
          items ∅)
  /\ (forall items includeTax ctx taxRate useExisting,
      taxRate = None \/ taxRate = Some 0 ->
      (exists e,
          getTaxLinesMap items ctx = inl e
          /\ getLineItemsTotals items includeTax ctx taxRate useExisting = inl e)
      \/ exists taxLinesMap : gmap string (list TaxLine),
          getLineItemsTotals items includeTax ctx taxRate useExisting
          = forOf
              (fun acc item =>
                 await v <-
                   getLineItemTotals item None (allocation_of ctx item)
                     (taxLinesMap !! LineItem.id item) ctx;
                 ret (<[LineItem.id item := v]> acc))
              items ∅)
  /\ (forall sms includeTax discounts ctx r useExisting,
      r <> 0 ->
      getShippingMethodsTotals sms includeTax discounts (Some r) ctx useExisting
      = forOf
          (fun acc sm =>
             await v <- getShippingMethodTotalsLegacy sm ctx discounts None;
             ret (<[ShippingMethod.id sm := v]> acc))
          sms ∅)
  /\ (forall sms includeTax discounts ctx taxRate useExisting,
      taxRate = None \/ taxRate = Some 0 ->
      (exists e,
          getTaxLinesMap [] ctx = inl e
          /\ getShippingMethodsTotals sms includeTax discounts taxRate ctx
               useExisting = inl e)
      \/ exists taxLinesMap : gmap string (list TaxLine),
          getShippingMethodsTotals sms includeTax discounts taxRate ctx useExisting
          = forOf
              (fun acc sm =>
                 await v <-
                   getShippingMethodTotals sm includeTax ctx
                     (taxLinesMap !! ShippingMethod.id sm) discounts;
                 ret (<[ShippingMethod.id sm := v]> acc))
              sms ∅)
  /\ (forall items includeTax ctx r useExisting m,
      r <> 0 ->
      getLineItemsTotals items includeTax ctx (Some r) useExisting = inr m ->
      NoDup (LineItem.id <$> items) ->
      forall item, item ∈ items ->
        exists t,
          getLineItemTotalsLegacy item r (allocation_of ctx item) ctx = inr t
          /\ m !! LineItem.id item = Some t)
  /\ (forall items includeTax ctx taxRate useExisting m,
      taxRate = None \/ taxRate = Some 0 ->
      getLineItemsTotals items includeTax ctx taxRate useExisting = inr m ->
      NoDup (LineItem.id <$> items) ->
      forall item, item ∈ items ->
        exists taxLines t,
          getLineItemTotals item None (allocation_of ctx item) taxLines ctx = inr t
          /\ m !! LineItem.id item = Some t)
  /\ (forall sms includeTax discounts ctx r useExisting m,
      r <> 0 ->
      getShippingMethodsTotals sms includeTax discounts (Some r) ctx useExisting
      = inr m ->
      NoDup (ShippingMethod.id <$> sms) ->
      forall sm, sm ∈ sms ->
        exists t,
          getShippingMethodTotalsLegacy sm ctx discounts None = inr t
          /\ m !! ShippingMethod.id sm = Some t)
  /\ (forall sms includeTax discounts ctx taxRate useExisting m,
      taxRate = None \/ taxRate = Some 0 ->
      getShippingMethodsTotals sms includeTax discounts taxRate ctx useExisting
      = inr m ->
      NoDup (ShippingMethod.id <$> sms) ->
      forall sm, sm ∈ sms ->
        exists taxLines t,
          getShippingMethodTotals sm includeTax ctx taxLines discounts = inr t
          /\ m !! ShippingMethod.id sm = Some t)
  /\ (forall lineItem ctx r,
      getLineItemRefund lineItem ctx (Some r)
      = inr (getLineItemRefundLegacy lineItem ctx r))
  /\ (forall items includeTax ctx useExisting,
      getLineItemsTotals items includeTax ctx (Some 0) useExisting
      = getLineItemsTotals items includeTax ctx None useExisting)
  /\ (forall sms includeTax discounts ctx useExisting,
      getShippingMethodsTotals sms includeTax discounts (Some 0) ctx useExisting
      = getShippingMethodsTotals sms includeTax discounts None ctx useExisting).
Proof.
  assert (Hfalsy : forall taxRate : option Qc,
             taxRate = None \/ taxRate = Some 0 -> JS.truthy_opt taxRate = false).
  { intros taxRate [->| ->]; reflexivity. }
  repeat match goal with |- _ /\ _ => split end.
  - intros. by apply getLineItemsTotals_truthy.
  - intros items includeTax ctx taxRate useExisting Hrate.
    destruct (getLineItemsTotals_shape items includeTax ctx taxRate useExisting)
      as [Hrej|[tl Hloop]]; [by left|].
    right. exists tl. rewrite Hloop, (Hfalsy _ Hrate). reflexivity.
  - intros. by apply getShippingMethodsTotals_truthy.
  - intros sms includeTax discounts ctx taxRate useExisting Hrate.
    destruct (getShippingMethodsTotals_shape sms includeTax discounts taxRate
                ctx useExisting) as [Hrej|[tl Hloop]]; [by left|].
    right. exists tl. rewrite Hloop, (Hfalsy _ Hrate). reflexivity.
  - intros items includeTax ctx r useExisting m Hr Hret Hnd item Hitem.
    rewrite getLineItemsTotals_truthy in Hret by exact Hr.
    apply (forOf_insert LineItem.id
             (fun item => getLineItemTotalsLegacy item r (allocation_of ctx item) ctx))
      in Hret as [_ Hin].
    exact (Hin Hnd item Hitem).
  - intros items includeTax ctx taxRate useExisting m Hrate Hret Hnd item Hitem.
    apply getLineItemsTotals_falsy in Hret as [tl Hloop]; [|by apply Hfalsy].
    apply (forOf_insert LineItem.id
             (fun item =>
                getLineItemTotals item None (allocation_of ctx item)
                  (tl !! LineItem.id item) ctx))
      in Hloop as [_ Hin].
    exists (tl !! LineItem.id item). exact (Hin Hnd item Hitem).
  - intros sms includeTax discounts ctx r useExisting m Hr Hret Hnd sm Hsm.
    rewrite getShippingMethodsTotals_truthy in Hret by exact Hr.
    apply (forOf_insert ShippingMethod.id
             (fun sm => getShippingMethodTotalsLegacy sm ctx discounts None))
      in Hret as [_ Hin].
    exact (Hin Hnd sm Hsm).
  - intros sms includeTax discounts ctx taxRate useExisting m Hrate Hret Hnd sm Hsm.
    apply getShippingMethodsTotals_falsy in Hret as [tl Hloop]; [|by apply Hfalsy].
    apply (forOf_insert ShippingMethod.id
             (fun sm =>
                getShippingMethodTotals sm includeTax ctx
                  (tl !! ShippingMethod.id sm) discounts))
      in Hloop as [_ Hin].
    exists (tl !! ShippingMethod.id sm). exact (Hin Hnd sm Hsm).
  - reflexivity.
  - reflexivity.
  - reflexivity.
Qed.

End DispatchClaim.

(** * Values in binary64 *)

(** ** Order of binary64 values *)

Lemma SFcompare_antisym (x y : spec_float) (c : comparison) :
  SFcompare x y = Some c -> SFcompare y x = Some (CompOpp c).
Proof.
  destruct x as [sx|sx| |sx mx ex], y as [sy|sy| |sy my ey]; simpl;
    try discriminate; intros [= <-]; try reflexivity;
    try (destruct sx; reflexivity); try (destruct sy; reflexivity);
    try (destruct sx, sy; reflexivity).
  destruct sx, sy; try reflexivity;
    rewrite (Z.compare_antisym ex ey);
    destruct (ex ?= ey)%Z; simpl; try reflexivity;
    change (Pos.compare_cont Eq my mx) with (Pos.compare my mx);
    change (Pos.compare_cont Eq mx my) with (Pos.compare mx my);
    rewrite (Pos.compare_antisym mx my); destruct (mx ?= my)%positive;
    reflexivity.
Qed.

Lemma ltb_irrefl (x : float) : (x <? x)%float = false.
Proof.
  rewrite ltb_spec. unfold SFltb.
  destruct (SFcompare (Prim2SF x) (Prim2SF x)) as [[]|] eqn:E; try reflexivity.
  pose proof (SFcompare_antisym _ _ _ E) as E'. rewrite E in E'. discriminate.
Qed.

Lemma ltb_asym (x y : float) : (x <? y)%float = true -> (y <? x)%float = false.
Proof.
  rewrite !ltb_spec. unfold SFltb.
  destruct (SFcompare (Prim2SF x) (Prim2SF y)) as [[]|] eqn:E; try discriminate.
  intros _. rewrite (SFcompare_antisym _ _ _ E). reflexivity.
Qed.

(** [Math.min] of two numbers is one of them, and neither is below it. *)
Lemma Double_Math_min_spec (a b : float) :
  is_nan a = false -> is_nan b = false ->
  (Double.Math_min a b = a \/ Double.Math_min a b = b)
  /\ (a <? Double.Math_min a b)%float = false
  /\ (b <? Double.Math_min a b)%float = false.
Proof.
  intros Ha Hb. unfold Double.Math_min. rewrite Ha, Hb. simpl.
  destruct (a <? b)%float eqn:Hab.
  - repeat split; [by left|apply ltb_irrefl|by apply ltb_asym].
  - destruct (b <? a)%float eqn:Hba.
    + repeat split; [by right|exact Hab|apply ltb_irrefl].
    + destruct (get_sign a).
      * repeat split; [by left|apply ltb_irrefl|exact Hba].
      * repeat split; [by right|exact Hab|apply ltb_irrefl].
Qed.

(** Two binary64 values of which one is below the other differ. *)
Lemma float_differ (a b : float) :
  ((a <? b) || (b <? a))%float = true -> a <> b.
Proof.
  intros Hlt ->. rewrite ltb_irrefl in Hlt. discriminate.
Qed.

Section Binary64.

Import Double.
Local Open Scope float_scope.

(** ** Gift cards *)

(** Folding one more transaction in is one more step on the totals so far. *)
Lemma Double_getGiftCardTransactionsTotals_snoc l t region :
  getGiftCardTransactionsTotals (l ++ [t]) region
  = giftCardTransactionStep region (getGiftCardTransactionsTotals l region) t.
Proof.
  unfold getGiftCardTransactionsTotals. by rewrite fold_left_app.
Qed.

(** C4, as amended.  In the fold over the gift-card transactions, a
    transaction adds [amount * multiplier] to the [tax_total] accumulated
    from the transactions before it, where the multiplier is the
    transaction's own recorded rate (zero when none is recorded) divided by
    100, unless [is_taxable] is unset and the region taxes gift cards, in
    which case it is the region's rate divided by 100.  So a transaction
    with [is_taxable] unset and amount 1000, in a region that taxes gift
    cards at rate 10, adds 100; and a transaction whose [is_taxable] is
    false adds [amount * (own rate / 100)] whatever the region, which is
    zero when its recorded rate is absent or zero. *)
Theorem C4_gift_card_transaction_tax :
  (forall region l t,
      getGiftCardTransactionsTotals (l ++ [t]) region
      = giftCardTransactionStep region (getGiftCardTransactionsTotals l region) t)
  /\ (forall region acc own b amount,
      GiftCardTotals.tax_total
        (giftCardTransactionStep region acc
           (GiftCardTransaction.mk own (Some b) amount))
      = GiftCardTotals.tax_total acc + amount * (or_zero own / 100))
  /\ (forall rate acc own amount,
      GiftCardTotals.tax_total
        (giftCardTransactionStep (Some (mkRegion rate true)) acc
           (GiftCardTransaction.mk own None amount))
      = GiftCardTotals.tax_total acc + amount * (rate / 100))
  /\ (forall region acc own amount,
      (region = None \/ exists rate, region = Some (mkRegion rate false)) ->
      GiftCardTotals.tax_total
        (giftCardTransactionStep region acc
           (GiftCardTransaction.mk own None amount))
      = GiftCardTotals.tax_total acc + amount * (or_zero own / 100))
  /\ (forall own l,
      GiftCardTotals.tax_total
        (getGiftCardTransactionsTotals
           (l ++ [GiftCardTransaction.mk own None 1000])
           (Some (mkRegion 10 true)))
      = GiftCardTotals.tax_total
          (getGiftCardTransactionsTotals l (Some (mkRegion 10 true)))
        + 100)
  /\ (forall region own l,
      or_zero own = 0 ->
      GiftCardTotals.tax_total
        (getGiftCardTransactionsTotals
           (l ++ [GiftCardTransaction.mk own (Some false) 1000]) region)
      = GiftCardTotals.tax_total (getGiftCardTransactionsTotals l region) + 0).
Proof.
  split; [|split; [|split; [|split; [|split]]]].
  - intros. apply Double_getGiftCardTransactionsTotals_snoc.
  - intros region acc own b amount. destruct region; reflexivity.
  - reflexivity.
  - intros region acc own amount [->|[rate ->]]; reflexivity.
  - intros own l. rewrite Double_getGiftCardTransactionsTotals_snoc. reflexivity.
  - intros region own l Hown.
    rewrite Double_getGiftCardTransactionsTotals_snoc.
    unfold giftCardTransactionStep. simpl. rewrite Hown.
    destruct region; reflexivity.
Qed.

(** C6.  Without a transaction history, [getGiftCardTotals] returns zero
    totals when the list of gift cards is absent or empty; otherwise
    [total] is [Math.min] of [giftCardableAmount] and the balances summed
    from 0 in the order of the list (one of the two, with neither below it,
    when they are numbers), and [tax_total] is
    [Math.round((total * region.tax_rate) / 100)] when the region taxes gift
    cards and zero when it does not. *)
Theorem C6_gift_card_totals giftCardableAmount region giftCards :
  let result := getGiftCardTotals giftCardableAmount None region giftCards in
  (giftCards = None \/ giftCards = Some [] ->
     GiftCardTotals.total result = 0 /\ GiftCardTotals.tax_total result = 0)
  /\ (forall cards, giftCards = Some cards -> cards <> [] ->
        let giftAmount := fold_left (fun acc c => acc + balance c) cards 0 in
        GiftCardTotals.total result = Math_min giftCardableAmount giftAmount
        /\ (is_nan giftCardableAmount = false -> is_nan giftAmount = false ->
              (GiftCardTotals.total result = giftCardableAmount
               \/ GiftCardTotals.total result = giftAmount)
              /\ (giftCardableAmount <? GiftCardTotals.total result) = false
              /\ (giftAmount <? GiftCardTotals.total result) = false)
        /\ (forall r, region = Some r -> gift_cards_taxable r = true ->
              GiftCardTotals.tax_total result =
                Math_round ((GiftCardTotals.total result * tax_rate r) / 100))
        /\ (region = None
            \/ (exists r, region = Some r /\ gift_cards_taxable r = false) ->
              GiftCardTotals.tax_total result = 0)).
Proof.
  intros result. subst result. split.
  - intros [->| ->]; split; reflexivity.
  - intros cards -> Hne giftAmount. destruct cards as [|c cards]; [congruence|].
    assert (Htotal :
      GiftCardTotals.total
        (getGiftCardTotals giftCardableAmount None region (Some (c :: cards)))
      = Math_min giftCardableAmount giftAmount).
    { unfold getGiftCardTotals.
      destruct region as [r|]; [destruct (gift_cards_taxable r)|]; reflexivity. }
    split; [exact Htotal|]. split.
    { intros Ha Hs. rewrite Htotal. by apply Double_Math_min_spec. }
    split.
    + intros r -> Hr. rewrite Htotal. unfold getGiftCardTotals. rewrite Hr.
      reflexivity.
    + intros [->|(r & -> & Hr)]; unfold getGiftCardTotals;
        [|rewrite Hr]; reflexivity.
Qed.

(** ** Legacy totals and refunds *)

Context `{pricing : Pricing}.



End Binary64.

(** ** The properties on concrete inputs *)

Ltac num_differ :=
  let Hq := fresh in intros [= Hq]; revert Hq; qc_differ.

(** Rounding each tax line on its own is not rounding at the summed rate: a
    refund of 10 under two lines of 5% is 12, under one line of 10% it is
    11. *)
Example refund_rounds_each_line :
  getLineItemRefund (caps := Sample.caps false)
    (Sample.item 10 1 false (Some [Sample.vat 5; Sample.vat 5]))
    Sample.context None = inr (int 12)
  /\ getLineItemRefund (caps := Sample.caps false)
       (Sample.item 10 1 false (Some [Sample.vat 10]))
       Sample.context None = inr (int 11).
Proof. split; unfold getLineItemRefund; simpl; f_equal; qc_same. Qed.

(** The legacy line-item path on a price that includes tax leaves
    [original_total] at the tax alone when the flag is enabled. *)
Example legacy_inclusive_original_total :
  exists t,
    getLineItemTotalsLegacy (caps := Sample.caps true)
      (Sample.item 1100 1 true None) (int 10) no_allocation Sample.context = inr t
    /\ LineItemTotals.subtotal t = int 1000
    /\ LineItemTotals.original_tax_total t = int 100
    /\ LineItemTotals.total t = int 1100
    /\ LineItemTotals.original_total t = int 100.
Proof.
  eexists. split; [reflexivity|]. simpl. repeat split; qc_same.
Qed.

(** C1 fails as stated: in the legacy shipping path (price 1000, rate 10:
    [original_total] 1000, [subtotal] 1000, [original_tax_total] 100), in the
    current shipping path under a FREE_SHIPPING discount ([original_total]
    1100, [subtotal] 0, [original_tax_total] 100), and in the legacy
    line-item path on a tax-inclusive price ([original_total] 100, [subtotal]
    1000, [original_tax_total] 100). *)
Lemma C1_counterexample :
  (exists t,
      getShippingMethodTotalsLegacy (Sample.method 1000 false None)
        Sample.context None (Some (int 10)) = inr t
      /\ ShippingMethodTotals.original_total t
         <> (ShippingMethodTotals.subtotal t
             + ShippingMethodTotals.original_tax_total t)%num)
  /\ (exists t,
      getShippingMethodTotals (caps := Sample.caps false)
        (Sample.method 1000 false (Some [Sample.vat 10])) None
        Sample.context None (Some [Sample.free_shipping]) = inr t
      /\ ShippingMethodTotals.original_total t
         <> (ShippingMethodTotals.subtotal t
             + ShippingMethodTotals.original_tax_total t)%num)
  /\ (exists t,
      getLineItemTotalsLegacy (caps := Sample.caps true)
        (Sample.item 1100 1 true None) (int 10) no_allocation Sample.context
      = inr t
      /\ LineItemTotals.original_total t
         <> LineItemTotals.subtotal t + LineItemTotals.original_tax_total t).
Proof.
  split; [|split]; eexists; (split; [reflexivity|]); simpl.
  - num_differ.
  - num_differ.
  - qc_differ.
Qed.

Lemma C1_witness :
  (exists t,
      getLineItemTotals (caps := Sample.caps true)
        (Sample.item 1100 2 true (Some [Sample.vat 10])) None no_allocation None
        Sample.context = inr t
      /\ LineItemTotals.original_total t =
           LineItemTotals.subtotal t + LineItemTotals.original_tax_total t)
  /\ (exists t,
      getLineItemTotalsLegacy (caps := Sample.caps true)
        (Sample.item 1000 2 false None) (int 10) no_allocation Sample.context
      = inr t
      /\ LineItemTotals.original_total t =
           LineItemTotals.subtotal t + LineItemTotals.original_tax_total t)
  /\ (exists t,
      getShippingMethodTotals (caps := Sample.caps true)
        (Sample.method 1100 true (Some [Sample.vat 10])) None
        Sample.context None None = inr t
      /\ ShippingMethodTotals.original_total t =
           (ShippingMethodTotals.subtotal t
            + ShippingMethodTotals.original_tax_total t)%num)
  /\ (exists t,
      getShippingMethodTotals (caps := Sample.caps false)
        (Sample.method 1000 false (Some [Sample.vat 10])) None
        Sample.context None (Some [Sample.free_shipping]) = inr t
      /\ ShippingMethodTotals.subtotal t = JS.Num 0).
Proof.
  destruct (C1_original_total_baseline (caps := Sample.caps true))
    as (Hcur & Hleg & Hship & _).
  destruct (C1_original_total_baseline (caps := Sample.caps false))
    as (_ & _ & _ & Hfree).
  split; [|split; [|split]].
  - eexists. split; [reflexivity|].
    apply (Hcur (Sample.item 1100 2 true (Some [Sample.vat 10])) None
             no_allocation None Sample.context).
    reflexivity.
  - apply Hleg. reflexivity.
  - eexists. split; [reflexivity|].
    apply (Hship (Sample.method 1100 true (Some [Sample.vat 10])) None
             Sample.context None None); [|reflexivity].
    intros (ds & d & Hd & _). discriminate Hd.
  - eexists. split; [reflexivity|].
    apply (Hfree (Sample.method 1000 false (Some [Sample.vat 10])) None
             Sample.context None (Some [Sample.free_shipping])); [|reflexivity].
    exists [Sample.free_shipping], Sample.free_shipping.
    repeat split. apply list_elem_of_here.
Defined.

Lemma C2_witness :
  getLineItemTotals (caps := Sample.caps false)
    (Sample.item 1000 1 false None) (Some true) no_allocation None
    Sample.context = inl tax_lines_must_be_joined
  /\ getShippingMethodTotals (caps := Sample.caps false)
       (Sample.method 1000 false (Some [])) (Some true) Sample.context None None
     = inl tax_lines_must_be_joined.
Proof.
  destruct (C2_missing_tax_lines_error (caps := Sample.caps false)) as [Hitem Hsm].
  split; [apply Hitem | apply Hsm]; reflexivity.
Defined.

Lemma C3_witness :
  exists t,
    getShippingMethodTotals (caps := Sample.caps true)
      (Sample.method 1100 true (Some [Sample.vat 10])) (Some true)
      Sample.context None (Some [Sample.free_shipping]) = inr t
    /\ ShippingMethodTotals.total t = JS.Num 0
    /\ ShippingMethodTotals.subtotal t = JS.Num 0
    /\ ShippingMethodTotals.tax_total t = JS.Num 0.
Proof.
  eexists. split; [reflexivity|].
  apply (C3_free_shipping_zeroes (caps := Sample.caps true)
           (Sample.method 1100 true (Some [Sample.vat 10])) (Some true)
           Sample.context None (Some [Sample.free_shipping])).
  exists [Sample.free_shipping], Sample.free_shipping.
  repeat split. apply list_elem_of_here.
Defined.

(** C4 fails as stated: a transaction with [is_taxable = false] that records
    a rate of 10 on an amount of 1000 adds 100 to [tax_total]. *)
Lemma C4_counterexample :
  let t := Double.GiftCardTransaction.mk (Some 10%float) (Some false) 1000%float in
  let region := Some (Double.mkRegion 10 true) in
  Double.GiftCardTotals.tax_total (Double.getGiftCardTransactionsTotals [] region)
  = 0%float
  /\ Double.GiftCardTotals.tax_total
       (Double.getGiftCardTransactionsTotals [t] region)
     = 100%float
  /\ (100 <> 0)%float.
Proof.
  repeat split. apply float_differ. reflexivity.
Qed.

Lemma C4_witness :
  let t := Double.GiftCardTransaction.mk None (Some false) 1000%float in
  let u := Double.GiftCardTransaction.mk (Some 25%float) None 1000%float in
  let region := Some (Double.mkRegion 10 true) in
  Double.GiftCardTotals.tax_total
    (Double.getGiftCardTransactionsTotals ([u] ++ [t]) region)
  = (Double.GiftCardTotals.tax_total
       (Double.getGiftCardTransactionsTotals [u] region) + 0)%float
  /\ Double.GiftCardTotals.tax_total
       (Double.giftCardTransactionStep (Some (Double.mkRegion 10 false))
          (Double.GiftCardTotals.mk 0 0) u)
     = (0 + 1000 * (Double.or_zero (Some 25) / 100))%float
  /\ Double.GiftCardTotals.tax_total
       (Double.getGiftCardTransactionsTotals [u] region)
     = 100%float.
Proof.
  intros t u region.
  destruct C4_gift_card_transaction_tax as (_ & _ & _ & Hown & _ & Hzero).
  split; [|split].
  - apply (Hzero region None [u]). reflexivity.
  - apply (Hown (Some (Double.mkRegion 10 false)) (Double.GiftCardTotals.mk 0 0)
             (Some 25%float) 1000%float).
    right. by exists 10%float.
  - reflexivity.
Defined.


Lemma C6_witness :
  let region := Some (Double.mkRegion (23 / 10) true) in
  let cards := [Double.mkGiftCard 1000; Double.mkGiftCard 500] in
  let result := Double.getGiftCardTotals 2000 None region (Some cards) in
  (Double.GiftCardTotals.total
     (Double.getGiftCardTotals 2000 None region (Some [])) = 0%float
   /\ Double.GiftCardTotals.tax_total
        (Double.getGiftCardTotals 2000 None region (Some [])) = 0%float)
  /\ Double.GiftCardTotals.total result = Double.Math_min 2000 (0 + 1000 + 500)
  /\ (2000 <? Double.GiftCardTotals.total result)%float = false
  /\ (0 + 1000 + 500 <? Double.GiftCardTotals.total result)%float = false
  /\ Double.GiftCardTotals.tax_total result
     = Double.Math_round ((Double.GiftCardTotals.total result * (23 / 10)) / 100)
  /\ Double.GiftCardTotals.total result = 1500%float
  /\ Double.GiftCardTotals.tax_total result = 34%float.
Proof.
  intros region cards result.
  destruct (C6_gift_card_totals 2000 region (Some [])) as [Hnone _].
  destruct (C6_gift_card_totals 2000 region (Some cards)) as [_ Hcards].
  destruct (Hcards cards eq_refl) as (Htotal & Hmin & Htax & _); [discriminate|].
  destruct (Hmin eq_refl eq_refl) as (_ & Hle1 & Hle2).
  split; [apply Hnone; right; reflexivity|].
  split; [exact Htotal|].
  split; [exact Hle1|].
  split; [exact Hle2|].
  split; [exact (Htax (Double.mkRegion (23 / 10) true) eq_refl eq_refl)|].
  split; reflexivity.
Defined.

Lemma C10_witness :
  let item := Sample.item 1000 2 false (Some [Sample.vat 10]) in
  let method := Sample.method 1000 false (Some [Sample.vat 10]) in
  (exists m t,
      getLineItemsTotals (caps := Sample.caps false) [item] (Some true)
        Sample.context (Some (int 10)) None = inr m
      /\ getLineItemTotalsLegacy (caps := Sample.caps false) item (int 10)
           (allocation_of Sample.context item) Sample.context = inr t
      /\ m !! LineItem.id item = Some t)
  /\ (exists m taxLines t,
      getLineItemsTotals (caps := Sample.caps false) [item] (Some true)
        Sample.context (Some 0) (Some true) = inr m
      /\ getLineItemTotals (caps := Sample.caps false) item None
           (allocation_of Sample.context item) taxLines Sample.context = inr t
      /\ m !! LineItem.id item = Some t)
  /\ (exists m t,
      getShippingMethodsTotals (caps := Sample.caps false) [method] (Some true)
        None (Some (int 10)) Sample.context None = inr m
      /\ getShippingMethodTotalsLegacy method Sample.context None None = inr t
      /\ m !! ShippingMethod.id method = Some t)
  /\ (exists m taxLines t,
      getShippingMethodsTotals (caps := Sample.caps false) [method] (Some true)
        None (Some 0) Sample.context (Some true) = inr m
      /\ getShippingMethodTotals (caps := Sample.caps false) method (Some true)
           Sample.context taxLines None = inr t
      /\ m !! ShippingMethod.id method = Some t)
  /\ getLineItemRefund (caps := Sample.caps false) item Sample.context (Some 0)
     = inr (getLineItemRefundLegacy (caps := Sample.caps false) item
              Sample.context 0).
Proof.
  intros item method.
  destruct (C10_dispatch_on_tax_rate (caps := Sample.caps false))
    as (_ & _ & _ & _ & Hlegacy & Hcurrent & Hslegacy & Hscurrent & Hrefund & _).
  assert (Hnd : NoDup (LineItem.id <$> [item])) by apply NoDup_singleton.
  assert (Hin : item ∈ [item]) by apply list_elem_of_here.
  assert (Hsnd : NoDup (ShippingMethod.id <$> [method])) by apply NoDup_singleton.
  assert (Hsin : method ∈ [method]) by apply list_elem_of_here.
  split; [|split; [|split; [|split]]].
  - destruct (getLineItemsTotals (caps := Sample.caps false) [item] (Some true)
                Sample.context (Some (int 10)) None) as [e|m] eqn:Em;
      [discriminate Em|].
    destruct (Hlegacy [item] (Some true) Sample.context (int 10) None m
                ltac:(qc_differ) Em Hnd item Hin) as (t & Ht & Hm).
    exists m, t. auto.
  - destruct (getLineItemsTotals (caps := Sample.caps false) [item] (Some true)
                Sample.context (Some 0) (Some true)) as [e|m] eqn:Em;
      [discriminate Em|].
    destruct (Hcurrent [item] (Some true) Sample.context (Some 0) (Some true) m
                (or_intror eq_refl) Em Hnd item Hin) as (tl & t & Ht & Hm).
    exists m, tl, t. auto.
  - destruct (getShippingMethodsTotals (caps := Sample.caps false) [method]
                (Some true) None (Some (int 10)) Sample.context None)
      as [e|m] eqn:Em; [discriminate Em|].
    destruct (Hslegacy [method] (Some true) None Sample.context (int 10) None m
                ltac:(qc_differ) Em Hsnd method Hsin) as (t & Ht & Hm).
    exists m, t. auto.
  - destruct (getShippingMethodsTotals (caps := Sample.caps false) [method]
                (Some true) None (Some 0) Sample.context (Some true))
      as [e|m] eqn:Em; [discriminate Em|].
    destruct (Hscurrent [method] (Some true) None Sample.context (Some 0)
                (Some true) m (or_intror eq_refl) Em Hsnd method Hsin)
      as (tl & t & Ht & Hm).
    exists m, tl, t. auto.
  - apply Hrefund.
Defined.

(** C7 fails as stated: with tax-inclusive pricing enabled, an item whose
    price includes tax, priced 1000 with quantity 2, without discount and
    without tax lines, gets [total = 0]. *)
Lemma C7_counterexample :
  exists t,
    getLineItemTotals (caps := Sample.caps true)
      (Sample.item 1000 2 true None) None no_allocation None Sample.context
    = inr t
    /\ discount_unit_amount no_allocation = 0
    /\ effective_tax_lines None (LineItem.tax_lines (Sample.item 1000 2 true None)) = []
    /\ LineItemTotals.tax_total t = 0
    /\ LineItemTotals.total t = 0
    /\ LineItemTotals.total t
       <> LineItem.unit_price (Sample.item 1000 2 true None)
          * LineItem.quantity (Sample.item 1000 2 true None).
Proof.
  eexists. split; [reflexivity|]. simpl.
  repeat split; try qc_same. qc_differ.
Qed.

Lemma C7_witness :
  exists t,
    getLineItemTotals (caps := Sample.caps false)
      (Sample.item 1000 2 true None) None no_allocation None Sample.context
    = inr t
    /\ LineItemTotals.tax_total t = 0
    /\ LineItemTotals.total t = int 1000 * int 2.
Proof.
  exact (C7_no_discount_no_tax_lines (caps := Sample.caps false)
           (Sample.item 1000 2 true None) None no_allocation None Sample.context
           eq_refl eq_refl eq_refl).
Defined.

Lemma C9_witness :
  getLineItemRefund (caps := Sample.caps false)
    (Sample.item 1000 2 false None) Sample.context None
  = inl refund_tax_lines_missing
  /\ getLineItemRefund (caps := Sample.caps false)
       (Sample.item 1000 2 false (Some [])) Sample.context None
     = inr ((int 1000 - 0) * int 2 - 0 * int 2).
Proof.
  split.
  - apply (C9_refund_undefined_tax_lines (caps := Sample.caps false)
             (Sample.item 1000 2 false None) Sample.context).
    reflexivity.
  - apply (C9_refund_undefined_tax_lines (caps := Sample.caps false)
             (Sample.item 1000 2 false (Some [])) Sample.context).
    reflexivity.
Defined.

(** * Further properties of the service *)

(** ** Rounding *)

(** A non-negative number rounds to a non-negative number. *)
Lemma Math_round_nonneg (x : Qc) : 0 ≤ x -> 0 ≤ JS.Math_round x.
Proof.
  intros Hx. unfold JS.Math_round.
  rewrite <- Z2Qc_inj_0. apply (proj1 (Z2Qc_inj_le _ _)).
  assert (Hle : (inject_Z 0 <= this x + this (Q2Qc (1 # 2)))%Q).
  { apply Qle_trans with (this x); [exact Hx|].
    rewrite <- (Qplus_0_r (this x)) at 1. apply Qplus_le_r. discriminate. }
  apply Qfloor_resp_le in Hle. rewrite Qfloor_Z in Hle. exact Hle.
Qed.

(** From [inr a = inr t], the equation [t := a]. *)
Ltac result_inj H :=
  match type of H with
  | _ = inr ?t =>
      unfold ret in H;
      apply (f_equal (fun r => match r with inr x => x | inl _ => t end)) in H;
      simpl in H; subst t
  end.

(** ** Current line-item totals *)

Section CurrentLineItem.

Context `{caps : Capabilities}.

(** Every field of the record the current line-item path returns. *)
Lemma getLineItemTotals_inv item includeTax alloc taxLines ctx t :
  getLineItemTotals item includeTax alloc taxLines ctx = inr t ->
  let lines := effective_tax_lines taxLines (LineItem.tax_lines item) in
  exists tax otax : Qc,
    (lines = [] /\ tax = 0 /\ otax = 0
     \/ lines <> []
        /\ calculate [item] lines ctx = inr tax
        /\ calculate [item] lines
             (TaxCalculationContext.with_allocation_map ∅ ctx) = inr otax)
    /\ LineItemTotals.tax_total t = tax
    /\ LineItemTotals.original_tax_total t = otax
    /\ LineItemTotals.discount_total t =
         discount_unit_amount alloc * LineItem.quantity item
    /\ LineItemTotals.subtotal t =
         (if taxInclusivePricing && LineItem.includes_tax item then
            match lines with
            | [] => 0
            | _ => LineItem.unit_price item * LineItem.quantity item - otax
            end
          else LineItem.unit_price item * LineItem.quantity item)
    /\ LineItemTotals.total t =
         LineItemTotals.subtotal t - LineItemTotals.discount_total t + tax
    /\ LineItemTotals.original_total t = LineItemTotals.subtotal t + otax.
Proof.
  cbv zeta. unfold getLineItemTotals. rewrite coalesce_effective.
  destruct (effective_tax_lines taxLines (LineItem.tax_lines item))
    as [|l lines']; intros Hret.
  - destruct (JS.truthy_flag includeTax); simpl in Hret; [discriminate|].
    result_inj Hret. exists 0, 0. simpl.
    split; [left; auto|].
    destruct (taxInclusivePricing && LineItem.includes_tax item); simpl;
      repeat split; ring.
  - rewrite andb_false_r in Hret. simpl in Hret.
    destruct (calculate [item] (l :: lines') ctx) as [e|tax] eqn:Etax;
      [discriminate|]. simpl in Hret.
    destruct (calculate [item] (l :: lines')
                (TaxCalculationContext.with_allocation_map ∅ ctx))
      as [e|otax] eqn:Eotax; [discriminate|]. simpl in Hret.
    result_inj Hret. exists tax, otax.
    split; [right; repeat split; auto; discriminate|].
    destruct (taxInclusivePricing && LineItem.includes_tax item); simpl;
      repeat split; ring.
Qed.

(** X1.  In every record the current line-item path returns,
    [total = subtotal - discount_total + tax_total], with or without tax
    lines and whether or not the price includes tax. *)
Theorem X1_line_item_total_identity item includeTax alloc taxLines ctx t :
  getLineItemTotals item includeTax alloc taxLines ctx = inr t ->
  LineItemTotals.total t =
    LineItemTotals.subtotal t - LineItemTotals.discount_total t
    + LineItemTotals.tax_total t.
Proof.
  intros Hret.
  apply getLineItemTotals_inv in Hret
    as (tax & otax & _ & Htax & _ & _ & _ & Htot & _).
  rewrite Htot, Htax. reflexivity.
Qed.

(** X2.  When tax-inclusive pricing applies to a line item (flag enabled and
    [includes_tax]) and there is a tax line, the current path splits the
    price: [subtotal + original_tax_total = unit_price * quantity], which is
    also [original_total], and the discounted total is
    [unit_price * quantity - discount_total - original_tax_total + tax_total]. *)
Theorem X2_line_item_inclusive_price item includeTax alloc taxLines ctx t :
  taxInclusivePricing = true ->
  LineItem.includes_tax item = true ->
  effective_tax_lines taxLines (LineItem.tax_lines item) <> [] ->
  getLineItemTotals item includeTax alloc taxLines ctx = inr t ->
  LineItemTotals.subtotal t + LineItemTotals.original_tax_total t
  = LineItem.unit_price item * LineItem.quantity item
  /\ LineItemTotals.original_total t
     = LineItem.unit_price item * LineItem.quantity item
  /\ LineItemTotals.total t
     = LineItem.unit_price item * LineItem.quantity item
       - LineItemTotals.discount_total t
       - LineItemTotals.original_tax_total t
       + LineItemTotals.tax_total t.
Proof.
  intros Hflag Hinc Hlines Hret.
  apply getLineItemTotals_inv in Hret
    as (tax & otax & _ & Htax & Hotax & _ & Hsub & Htot & Horig).
  rewrite Hflag, Hinc in Hsub. simpl in Hsub.
  destruct (effective_tax_lines taxLines (LineItem.tax_lines item));
    [done|].
  rewrite Horig, Htot, Htax, Hotax, Hsub. repeat split; ring.
Qed.

(** X3.  The undiscounted figures of a line item do not depend on the
    discounts: two returning calls of the current path that differ only in
    the line allocation and in the allocation map of the context agree on
    [subtotal], [original_tax_total] and [original_total]. *)
Theorem X3_line_item_original_discount_free
    item includeTax alloc alloc' taxLines ctx m t t' :
  getLineItemTotals item includeTax alloc taxLines ctx = inr t ->
  getLineItemTotals item includeTax alloc' taxLines
    (TaxCalculationContext.with_allocation_map m ctx) = inr t' ->
  LineItemTotals.subtotal t = LineItemTotals.subtotal t'
  /\ LineItemTotals.original_tax_total t = LineItemTotals.original_tax_total t'
  /\ LineItemTotals.original_total t = LineItemTotals.original_total t'.
Proof.
  intros Hret Hret'.
  apply getLineItemTotals_inv in Hret
    as (tax & otax & Hcalc & _ & Hotax & _ & Hsub & _ & Horig).
  apply getLineItemTotals_inv in Hret'
    as (tax' & otax' & Hcalc' & _ & Hotax' & _ & Hsub' & _ & Horig').
  assert (Heq : otax = otax').
  { destruct Hcalc as [(Hnil & _ & ->)|(Hne & _ & Ho)],
      Hcalc' as [(Hnil' & _ & ->)|(Hne' & _ & Ho')];
      [reflexivity|by destruct Hne'|by destruct Hne|].
    change (TaxCalculationContext.with_allocation_map ∅
              (TaxCalculationContext.with_allocation_map m ctx))
      with (TaxCalculationContext.with_allocation_map ∅ ctx) in Ho'.
    congruence. }
  rewrite <- Heq in *. rewrite Horig, Horig', Hsub, Hsub', Hotax, Hotax'. auto.
Qed.

End CurrentLineItem.

(** ** Refunds and the feature flag *)

Section LegacyAndRefund.

Context `{caps : Capabilities}.

(** X6.  With tax-inclusive pricing disabled, a refund does not depend on
    the [includes_tax] mark of the line item, on the current path and on the
    legacy path. *)
Theorem X6_refund_flag_disabled id unit_price quantity b b' tax_lines ctx taxRate :
  taxInclusivePricing = false ->
  getLineItemRefund (LineItem.mk id unit_price quantity b tax_lines) ctx taxRate
  = getLineItemRefund (LineItem.mk id unit_price quantity b' tax_lines) ctx taxRate.
Proof.
  intros Hflag.
  unfold getLineItemRefund, getLineItemRefundLegacy. rewrite Hflag. reflexivity.
Qed.

End LegacyAndRefund.

(** ** Gift cards, continued *)

Lemma sum_of_nonneg {A} (f : A -> Qc) (l : list A) :
  Forall (fun x => 0 ≤ f x) l -> 0 ≤ sum_of f l.
Proof.
  induction 1 as [|x l Hx _ IH]; simpl.
  - apply Qcle_refl.
  - by apply Qcplus_nonneg_nonneg.
Qed.

Lemma Qcmult_nonneg (a b : Qc) : 0 ≤ a -> 0 ≤ b -> 0 ≤ a * b.
Proof.
  intros Ha Hb. replace 0 with (0 * b) by ring.
  by apply Qcmult_le_compat_r.
Qed.

(** X8.  A supplied transaction history, even an empty one, replaces the
    gift cards altogether: the result depends neither on
    [giftCardableAmount] nor on [giftCards], its [total] is the sum of the
    transaction amounts (not capped by [giftCardableAmount]), and an empty
    history gives zero totals. *)
Theorem X8_gift_card_history_overrides
    giftCardableAmount giftCardableAmount' txs region giftCards giftCards' :
  getGiftCardTotals giftCardableAmount (Some txs) region giftCards
  = getGiftCardTotals giftCardableAmount' (Some txs) region giftCards'
  /\ GiftCardTotals.total
       (getGiftCardTotals giftCardableAmount (Some txs) region giftCards)
     = sum_of GiftCardTransaction.amount txs
  /\ getGiftCardTotals giftCardableAmount (Some []) region giftCards
     = {| GiftCardTotals.total := 0; GiftCardTotals.tax_total := 0 |}.
Proof.
  split; [reflexivity|]. split; [|reflexivity].
  simpl. unfold getGiftCardTransactionsTotals.
  rewrite fold_giftCardTransactionStep. simpl. ring.
Qed.

(** X9.  Without a transaction history, for a non-negative
    [giftCardableAmount], non-negative balances and a non-negative regional
    rate, the redeemed [total] lies between zero and [giftCardableAmount],
    and [tax_total] is a non-negative whole number. *)
Theorem X9_gift_card_totals_bounds giftCardableAmount region giftCards :
  0 ≤ giftCardableAmount ->
  (forall cards, giftCards = Some cards -> Forall (fun c => 0 ≤ balance c) cards) ->
  (forall r, region = Some r -> 0 ≤ tax_rate r) ->
  let result := getGiftCardTotals giftCardableAmount None region giftCards in
  0 ≤ GiftCardTotals.total result
  /\ GiftCardTotals.total result ≤ giftCardableAmount
  /\ 0 ≤ GiftCardTotals.tax_total result
  /\ is_integer (GiftCardTotals.tax_total result).
Proof.
  intros Hamount Hcards Hrate result. subst result.
  assert (Hzero : is_integer 0) by (exists 0%Z; qc_same).
  destruct giftCards as [[|c cards]|]; simpl;
    try (repeat split; [apply Qcle_refl|exact Hamount|apply Qcle_refl|exact Hzero]).
  rewrite (fold_left_sum_of balance cards (0 + balance c)).
  set (sum := 0 + balance c + sum_of balance cards).
  assert (Hsum : 0 ≤ sum).
  { subst sum. specialize (Hcards (c :: cards) eq_refl).
    apply Forall_cons in Hcards as [Hc Hcs].
    apply Qcplus_nonneg_nonneg; [|by apply sum_of_nonneg].
    by rewrite Qcplus_0_l. }
  assert (Htotal : 0 ≤ JS.Math_min giftCardableAmount sum).
  { destruct (Math_min_cases giftCardableAmount sum) as [-> | ->]; assumption. }
  destruct region as [r|]; simpl.
  - destruct (gift_cards_taxable r); simpl.
    + repeat split; [exact Htotal|apply Math_min_le_l| |apply Math_round_integer].
      apply Math_round_nonneg. unfold Qcdiv.
      apply Qcmult_nonneg; [apply Qcmult_nonneg; [exact Htotal|by apply Hrate]|].
      by vm_compute.
    + repeat split; [exact Htotal|apply Math_min_le_l|apply Qcle_refl|exact Hzero].
  - repeat split; [exact Htotal|apply Math_min_le_l|apply Qcle_refl|exact Hzero].
Qed.

(** ** Current shipping totals *)

Section CurrentShipping.

Context `{caps : Capabilities}.

(** X10.  In every record the current shipping path returns,
    [total = subtotal + tax_total]: for a price that includes tax, for one
    that does not, and under a FREE_SHIPPING discount. *)
Theorem X10_shipping_total_identity sm includeTax ctx taxLines discounts t :
  getShippingMethodTotals sm includeTax ctx taxLines discounts = inr t ->
  ShippingMethodTotals.total t =
    (ShippingMethodTotals.subtotal t + ShippingMethodTotals.tax_total t)%num.
Proof.
  intros Hret.
  apply getShippingMethodTotals_inv in Hret
    as (tax & _ & _ & _ & Hfree & Hpaid).
  destruct (hasFreeShipping discounts).
  - destruct (Hfree eq_refl) as (-> & -> & ->). simpl.
    replace (0 + 0) with 0 by ring. reflexivity.
  - destruct (Hpaid eq_refl) as (-> & -> & ->).
    destruct (taxInclusivePricing && ShippingMethod.includes_tax sm); simpl.
    + replace (ShippingMethod.price sm - tax + tax)
        with (ShippingMethod.price sm) by ring. reflexivity.
    + reflexivity.
Qed.

(** X11.  Without a FREE_SHIPPING discount (in particular with no discount
    or an empty set) the discounted and the undiscounted figures of a
    shipping method coincide: [tax_total = original_tax_total] and
    [total = original_total].  When tax-inclusive pricing applies to the
    method the total is the price; otherwise the subtotal is the price. *)
Theorem X11_shipping_without_free_shipping
    sm includeTax ctx taxLines discounts t :
  ~ free_shipping_applies discounts ->
  getShippingMethodTotals sm includeTax ctx taxLines discounts = inr t ->
  ShippingMethodTotals.tax_total t = ShippingMethodTotals.original_tax_total t
  /\ ShippingMethodTotals.total t = ShippingMethodTotals.original_total t
  /\ (if taxInclusivePricing && ShippingMethod.includes_tax sm
      then ShippingMethodTotals.total t = JS.Num (ShippingMethod.price sm)
      else ShippingMethodTotals.subtotal t = JS.Num (ShippingMethod.price sm)).
Proof.
  intros Hno Hret.
  apply getShippingMethodTotals_inv in Hret
    as (tax & _ & Hott & Horig & _ & Hpaid).
  destruct (Hpaid (hasFreeShipping_false _ Hno)) as (Htax & Hsub & Htot).
  rewrite Htax, Hott, Htot, Horig, Hsub.
  destruct (taxInclusivePricing && ShippingMethod.includes_tax sm); auto.
Qed.

(** With a strategy that never rejects, the current shipping path returns a
    record or raises the missing-tax-lines error. *)
Lemma getShippingMethodTotals_cases sm includeTax ctx taxLines discounts :
  (forall items lines c, exists v, calculate items lines c = inr v) ->
  getShippingMethodTotals sm includeTax ctx taxLines discounts
  = inl tax_lines_must_be_joined
  \/ exists t,
      getShippingMethodTotals sm includeTax ctx taxLines discounts = inr t.
Proof.
  intros Hcalc. unfold getShippingMethodTotals.
  destruct (JS.truthy_flag includeTax && _); [by left|]. right.
  match goal with
  | |- context [calculate ?a ?b ?c] => destruct (Hcalc a b c) as [v ->]
  end.
  simpl. eauto.
Qed.

(** With a strategy that never rejects, the current line-item path called
    without [includeTax] returns a record. *)
Lemma getLineItemTotals_returns item alloc taxLines ctx :
  (forall items lines c, exists v, calculate items lines c = inr v) ->
  exists t, getLineItemTotals item None alloc taxLines ctx = inr t.
Proof.
  intros Hcalc. unfold getLineItemTotals. simpl.
  destruct (0 <? _)%nat; [|eauto].
  match goal with
  | |- context [calculate ?a ?b ctx] => destruct (Hcalc a b ctx) as [v ->]
  end.
  simpl.
  match goal with
  | |- context [calculate ?a ?b ?c] => destruct (Hcalc a b c) as [w ->]
  end.
  simpl. eauto.
Qed.

End CurrentShipping.

(** ** The loop of the batch entry points *)

Section BatchLoop.

Context {A V : Type} (key : A -> string) (f : A -> Result V).

Local Abbreviation loop :=
  (forOf (fun acc x => await v <- f x; ret (<[key x := v]> acc))).

(** Every entry of the result is an entry of the initial map or the record
    computed for an entity with that id. *)
Lemma forOf_entries (l : list A) (m0 m : gmap string V) :
  loop l m0 = inr m ->
  forall k v, m !! k = Some v ->
    m0 !! k = Some v \/ exists x, x ∈ l /\ key x = k /\ f x = inr v.
Proof.
  revert m0. induction l as [|a l IH]; intros m0; simpl.
  - intros [= <-] k v Hk. by left.
  - destruct (f a) as [e|w] eqn:Ea; simpl; [discriminate|].
    intros Hloop k v Hk.
    destruct (IH _ Hloop k v Hk) as [Hm|(x & Hx & Hkx & Hfx)].
    + destruct (decide (key a = k)) as [<-|Hne].
      * rewrite lookup_insert_eq in Hm. injection Hm as <-.
        right. exists a. split; [apply list_elem_of_here|auto].
      * rewrite lookup_insert_ne in Hm by exact Hne. by left.
    + right. exists x. split; [by apply list_elem_of_further|auto].
Qed.

(** The keys of the result are the keys of the initial map and the ids of
    the entities. *)
Lemma forOf_keys (l : list A) (m0 m : gmap string V) :
  loop l m0 = inr m ->
  forall k, is_Some (m !! k) <-> k ∈ (key <$> l) \/ is_Some (m0 !! k).
Proof.
  revert m0. induction l as [|a l IH]; intros m0; simpl.
  - intros [= <-] k. split; [by right|]. intros [Hk|Hk]; [inversion Hk|done].
  - destruct (f a) as [e|w] eqn:Ea; simpl; [discriminate|].
    intros Hloop k. rewrite (IH _ Hloop k), elem_of_cons.
    destruct (decide (k = key a)) as [->|Hne].
    + rewrite lookup_insert_eq. split; [auto|]. intros _. right. eauto.
    + rewrite lookup_insert_ne by congruence. tauto.
Qed.

(** The loop returns when every call does. *)
Lemma forOf_returns (l : list A) (m0 : gmap string V) :
  (forall x, x ∈ l -> exists v, f x = inr v) ->
  exists m, loop l m0 = inr m.
Proof.
  revert m0. induction l as [|a l IH]; intros m0 Hall; simpl.
  - eauto.
  - destruct (Hall a (list_elem_of_here _ _)) as [v ->]. simpl.
    apply IH. intros x Hx. apply Hall. by apply list_elem_of_further.
Qed.

(** The loop raises [e] when some call raises [e] and no call raises
    anything else. *)
Lemma forOf_raises (l : list A) (m0 : gmap string V) (e : exn) (x : A) :
  x ∈ l -> f x = inl e ->
  (forall y, y ∈ l -> f y = inl e \/ exists v, f y = inr v) ->
  loop l m0 = inl e.
Proof.
  revert m0. induction l as [|a l IH]; intros m0 Hx Hfx Hall; simpl.
  - inversion Hx.
  - destruct (Hall a (list_elem_of_here _ _)) as [->|[v Hv]]; [reflexivity|].
    rewrite Hv. simpl. apply elem_of_cons in Hx as [->|Hx]; [congruence|].
    apply IH; [exact Hx|exact Hfx|].
    intros y Hy. apply Hall. by apply list_elem_of_further.
Qed.

End BatchLoop.

(** The map built from the tax lines the entities already carry. *)
Lemma fold_insert_lookup_notin {A V} (key : A -> string) (g : A -> V)
    (l : list A) (m0 : gmap string V) (k : string) :
  k ∉ (key <$> l) ->
  fold_left (fun m x => <[key x := g x]> m) l m0 !! k = m0 !! k.
Proof.
  revert m0. induction l as [|a l IH]; intros m0 Hk; simpl; [reflexivity|].
  simpl in Hk. rewrite not_elem_of_cons in Hk. destruct Hk as [Hne Hk].
  rewrite (IH _ Hk). by rewrite lookup_insert_ne.
Qed.

Lemma fold_insert_lookup {A V} (key : A -> string) (g : A -> V)
    (l : list A) (m0 : gmap string V) (x : A) :
  NoDup (key <$> l) -> x ∈ l ->
  fold_left (fun m x => <[key x := g x]> m) l m0 !! key x = Some (g x).
Proof.
  revert m0. induction l as [|a l IH]; intros m0 Hnd Hx; simpl.
  - inversion Hx.
  - simpl in Hnd. apply NoDup_cons in Hnd as [Hfresh Hnd].
    apply elem_of_cons in Hx as [->|Hx].
    + rewrite fold_insert_lookup_notin by exact Hfresh.
      by rewrite lookup_insert_eq.
    + by apply IH.
Qed.

(** ** Batch entry points *)

Section Batch.

Context `{caps : Capabilities}.

(** X12.  On an empty list both batch entry points return the empty map,
    whatever the options, and without consulting the tax line provider. *)
Theorem X12_batch_empty includeTax discounts ctx taxRate useExisting :
  getLineItemsTotals [] includeTax ctx taxRate useExisting = inr ∅
  /\ getShippingMethodsTotals [] includeTax discounts taxRate ctx useExisting
     = inr ∅.
Proof.
  unfold getLineItemsTotals, getShippingMethodsTotals. simpl.
  destruct (negb (JS.truthy_opt taxRate) && JS.truthy_flag includeTax),
    (JS.truthy_flag useExisting); split; reflexivity.
Qed.

(** X13.  With a strategy and a provider that never reject,
    [getLineItemsTotals] always returns: the batch does not pass
    [includeTax] on to the current path, so the missing-tax-lines error
    cannot be raised through it, even for items without tax lines. *)
Theorem X13_line_items_batch_returns items includeTax ctx taxRate useExisting :
  (forall its lines c, exists v, calculate its lines c = inr v) ->
  (forall its c, exists v, getTaxLinesMap its c = inr v) ->
  exists m, getLineItemsTotals items includeTax ctx taxRate useExisting = inr m.
Proof.
  intros Hcalc Hprov.
  destruct (getLineItemsTotals_shape items includeTax ctx taxRate useExisting)
    as [(e & He & _)|[tl ->]].
  - destruct (Hprov items ctx) as [v Hv]. congruence.
  - apply (forOf_returns LineItem.id
             (fun item =>
                if JS.truthy_opt taxRate then
                  getLineItemTotalsLegacy item (default 0 taxRate)
                    (allocation_of ctx item) ctx
                else
                  getLineItemTotals item None (allocation_of ctx item)
                    (tl !! LineItem.id item) ctx)).
    intros item _. destruct (JS.truthy_opt taxRate).
    + destruct (getLineItemTotalsLegacy_inv item (default 0 taxRate)
                  (allocation_of ctx item) ctx) as (t & Ht & _).
      eauto.
    + by apply getLineItemTotals_returns.
Qed.

(** X14.  [getShippingMethodsTotals] does pass [includeTax] on: asked to
    include tax from the tax lines the methods carry, with a falsy
    [taxRate], it raises the missing-tax-lines error as soon as one method
    carries no tax line, and returns no map (the strategy never
    rejecting). *)
Theorem X14_shipping_batch_fails_fast sms discounts taxRate ctx sm :
  (forall its lines c, exists v, calculate its lines c = inr v) ->
  JS.truthy_opt taxRate = false ->
  NoDup (ShippingMethod.id <$> sms) ->
  sm ∈ sms ->
  default [] (ShippingMethod.tax_lines sm) = [] ->
  getShippingMethodsTotals sms (Some true) discounts taxRate ctx (Some true)
  = inl tax_lines_must_be_joined.
Proof.
  intros Hcalc Hrate Hnd Hsm Hlines.
  unfold getShippingMethodsTotals. rewrite Hrate. simpl.
  set (tl := fold_left _ sms ∅).
  apply (forOf_raises ShippingMethod.id
           (fun sm =>
              getShippingMethodTotals sm (Some true) ctx
                (tl !! ShippingMethod.id sm) discounts)
           sms ∅ tax_lines_must_be_joined sm Hsm).
  - subst tl.
    rewrite (fold_insert_lookup ShippingMethod.id
               (fun sm => default [] (ShippingMethod.tax_lines sm))
               sms ∅ sm Hnd Hsm).
    unfold getShippingMethodTotals. simpl. rewrite Hlines. reflexivity.
  - intros y _. by apply getShippingMethodTotals_cases.
Qed.

(** X15.  With a non-zero [taxRate] both batch entry points return whatever
    the strategy and the provider do, neither being consulted; the shipping
    batch calls the legacy computation without the rate, so every entry of
    its map has [NaN] for [tax_total] and [original_tax_total] and the
    price of a method of the batch for [total]. *)
Theorem X15_legacy_batches items sms includeTax discounts ctx r useExisting :
  r <> 0 ->
  (exists m, getLineItemsTotals items includeTax ctx (Some r) useExisting = inr m)
  /\ (exists m,
        getShippingMethodsTotals sms includeTax discounts (Some r) ctx useExisting
        = inr m
        /\ forall k t, m !! k = Some t ->
             ShippingMethodTotals.tax_total t = JS.NaN
             /\ ShippingMethodTotals.original_tax_total t = JS.NaN
             /\ exists sm, sm ∈ sms /\ ShippingMethod.id sm = k
                  /\ ShippingMethodTotals.total t = JS.Num (ShippingMethod.price sm)).
Proof.
  intros Hr. split.
  - rewrite getLineItemsTotals_truthy by exact Hr.
    apply (forOf_returns LineItem.id
             (fun item => getLineItemTotalsLegacy item r (allocation_of ctx item) ctx)).
    intros item _.
    destruct (getLineItemTotalsLegacy_inv item r (allocation_of ctx item) ctx)
      as (t & Ht & _).
    eauto.
  - rewrite getShippingMethodsTotals_truthy by exact Hr.
    destruct (forOf_returns ShippingMethod.id
                (fun sm => getShippingMethodTotalsLegacy sm ctx discounts None)
                sms ∅) as [m Hm].
    { intros sm _.
      destruct (getShippingMethodTotalsLegacy_no_rate sm ctx discounts)
        as (t & Ht & _).
      eauto. }
    exists m. split; [exact Hm|]. intros k t Hk.
    destruct (forOf_entries _ _ _ _ _ Hm k t Hk) as [Hempty|(sm & Hsm & Hid & Ht)].
    { rewrite lookup_empty in Hempty. discriminate. }
    destruct (getShippingMethodTotalsLegacy_no_rate sm ctx discounts)
      as (t' & Ht' & Htax & Hott & Htot).
    rewrite Ht in Ht'. injection Ht' as <-. eauto 10.
Qed.

(** X16.  The map a batch entry point returns has exactly the ids of the
    given entities as its keys. *)
Theorem X16_batch_keys :
  (forall items includeTax ctx taxRate useExisting m,
      getLineItemsTotals items includeTax ctx taxRate useExisting = inr m ->
      forall k, is_Some (m !! k) <-> k ∈ (LineItem.id <$> items))
  /\ (forall sms includeTax discounts taxRate ctx useExisting m,
      getShippingMethodsTotals sms includeTax discounts taxRate ctx useExisting
      = inr m ->
      forall k, is_Some (m !! k) <-> k ∈ (ShippingMethod.id <$> sms)).
Proof.
  assert (Hempty : forall V (k : string), ~ is_Some ((∅ : gmap string V) !! k)).
  { intros V k. rewrite lookup_empty. by intros [? ?]. }
  split.
  - intros items includeTax ctx taxRate useExisting m Hret k.
    destruct (getLineItemsTotals_shape items includeTax ctx taxRate useExisting)
      as [(e & _ & He)|[tl Hshape]]; [congruence|].
    rewrite Hshape in Hret.
    apply (forOf_keys LineItem.id _ items ∅ m) with (k := k) in Hret.
    rewrite Hret. specialize (Hempty LineItemTotals.t k). tauto.
  - intros sms includeTax discounts taxRate ctx useExisting m Hret k.
    destruct (getShippingMethodsTotals_shape sms includeTax discounts taxRate
                ctx useExisting) as [(e & _ & He)|[tl Hshape]]; [congruence|].
    rewrite Hshape in Hret.
    apply (forOf_keys ShippingMethod.id _ sms ∅ m) with (k := k) in Hret.
    rewrite Hret. specialize (Hempty ShippingMethodTotals.t k). tauto.
Qed.

End Batch.

(** ** The further properties on concrete inputs *)

Lemma Sample_strategy_total its lines c :
  exists v, Sample.strategy its lines c = inr v.
Proof. destruct its; eexists; reflexivity. Qed.

Lemma Sample_provider_total its c : exists v, Sample.provider its c = inr v.
Proof. eexists; reflexivity. Qed.

Lemma X1_witness :
  exists t,
    getLineItemTotals (caps := Sample.caps true)
      (Sample.item 1100 2 true (Some [Sample.vat 10])) None
      (mkLineAllocation (Some (mkDiscountAllocation (int 200) (Some (int 100)))))
      None Sample.context = inr t
    /\ LineItemTotals.total t =
         LineItemTotals.subtotal t - LineItemTotals.discount_total t
         + LineItemTotals.tax_total t.
Proof.
  eexists. split; [reflexivity|].
  apply (X1_line_item_total_identity (caps := Sample.caps true)
           (Sample.item 1100 2 true (Some [Sample.vat 10])) None
           (mkLineAllocation (Some (mkDiscountAllocation (int 200) (Some (int 100)))))
           None Sample.context).
  reflexivity.
Defined.

Lemma X2_witness :
  exists t,
    getLineItemTotals (caps := Sample.caps true)
      (Sample.item 1100 2 true (Some [Sample.vat 10])) None no_allocation
      None Sample.context = inr t
    /\ LineItemTotals.subtotal t + LineItemTotals.original_tax_total t
       = int 1100 * int 2
    /\ LineItemTotals.original_total t = int 1100 * int 2.
Proof.
  eexists. split; [reflexivity|].
  pose proof (X2_line_item_inclusive_price (caps := Sample.caps true)
                (Sample.item 1100 2 true (Some [Sample.vat 10])) None
                no_allocation None Sample.context _
                eq_refl eq_refl ltac:(discriminate) eq_refl)
    as (Hsplit & Horig & _).
  split; [exact Hsplit|exact Horig].
Defined.

Lemma X3_witness :
  let discounted :=
    mkLineAllocation (Some (mkDiscountAllocation (int 200) (Some (int 100)))) in
  exists t t',
    getLineItemTotals (caps := Sample.caps false)
      (Sample.item 1000 2 false (Some [Sample.vat 10])) None no_allocation
      None Sample.context = inr t
    /\ getLineItemTotals (caps := Sample.caps false)
         (Sample.item 1000 2 false (Some [Sample.vat 10])) None discounted None
         (TaxCalculationContext.with_allocation_map {["item_1" := discounted]}
            Sample.context) = inr t'
    /\ LineItemTotals.tax_total t <> LineItemTotals.tax_total t'
    /\ LineItemTotals.subtotal t = LineItemTotals.subtotal t'
    /\ LineItemTotals.original_tax_total t = LineItemTotals.original_tax_total t'
    /\ LineItemTotals.original_total t = LineItemTotals.original_total t'.
Proof.
  intros discounted. eexists. eexists.
  split; [reflexivity|]. split; [reflexivity|].
  split; [simpl; qc_differ|].
  apply (X3_line_item_original_discount_free (caps := Sample.caps false)
           (Sample.item 1000 2 false (Some [Sample.vat 10])) None no_allocation
           discounted None Sample.context {["item_1" := discounted]});
    reflexivity.
Defined.

Lemma X6_witness :
  getLineItemRefund (caps := Sample.caps false)
    (LineItem.mk "item_1" (int 1100) (int 2) true (Some [Sample.vat 10]))
    Sample.context None
  = getLineItemRefund (caps := Sample.caps false)
      (LineItem.mk "item_1" (int 1100) (int 2) false (Some [Sample.vat 10]))
      Sample.context None.
Proof.
  apply (X6_refund_flag_disabled (caps := Sample.caps false)). reflexivity.
Defined.

Lemma X9_witness :
  let result :=
    getGiftCardTotals (int 500) None (Some (mkRegion (int 10) true))
      (Some [mkGiftCard (int 300); mkGiftCard (int 400)]) in
  0 ≤ GiftCardTotals.total result
  /\ GiftCardTotals.total result ≤ int 500
  /\ 0 ≤ GiftCardTotals.tax_total result
  /\ is_integer (GiftCardTotals.tax_total result).
Proof.
  apply (X9_gift_card_totals_bounds (int 500) (Some (mkRegion (int 10) true))
           (Some [mkGiftCard (int 300); mkGiftCard (int 400)])).
  - by vm_compute.
  - intros cards [= <-]. repeat constructor; by vm_compute.
  - intros r [= <-]. by vm_compute.
Defined.

Lemma X10_witness :
  exists t,
    getShippingMethodTotals (caps := Sample.caps true)
      (Sample.method 1100 true (Some [Sample.vat 10])) None Sample.context
      None None = inr t
    /\ ShippingMethodTotals.total t =
         (ShippingMethodTotals.subtotal t + ShippingMethodTotals.tax_total t)%num.
Proof.
  eexists. split; [reflexivity|].
  apply (X10_shipping_total_identity (caps := Sample.caps true)
           (Sample.method 1100 true (Some [Sample.vat 10])) None Sample.context
           None None).
  reflexivity.
Defined.

Lemma X11_witness :
  exists t,
    getShippingMethodTotals (caps := Sample.caps true)
      (Sample.method 1100 true (Some [Sample.vat 10])) None Sample.context
      None (Some []) = inr t
    /\ ShippingMethodTotals.tax_total t = ShippingMethodTotals.original_tax_total t
    /\ ShippingMethodTotals.total t = ShippingMethodTotals.original_total t
    /\ ShippingMethodTotals.total t = JS.Num (int 1100).
Proof.
  eexists. split; [reflexivity|].
  apply (X11_shipping_without_free_shipping (caps := Sample.caps true)
           (Sample.method 1100 true (Some [Sample.vat 10])) None Sample.context
           None (Some [])); [|reflexivity].
  intros (ds & d & [= <-] & Hd & _). inversion Hd.
Defined.

Lemma X13_witness :
  exists m,
    getLineItemsTotals (caps := Sample.caps false)
      [Sample.item 1000 2 false None] (Some true) Sample.context None (Some true)
    = inr m.
Proof.
  apply (X13_line_items_batch_returns (caps := Sample.caps false)).
  - apply Sample_strategy_total.
  - apply Sample_provider_total.
Defined.

Lemma X14_witness :
  getShippingMethodsTotals (caps := Sample.caps false)
    [Sample.method 1000 false None] (Some true) None None Sample.context
    (Some true)
  = inl tax_lines_must_be_joined.
Proof.
  apply (X14_shipping_batch_fails_fast (caps := Sample.caps false)
           [Sample.method 1000 false None] None None Sample.context
           (Sample.method 1000 false None)).
  - apply Sample_strategy_total.
  - reflexivity.
  - apply NoDup_singleton.
  - apply list_elem_of_here.
  - reflexivity.
Defined.

Lemma X15_witness :
  (exists m,
      getLineItemsTotals (caps := Sample.caps false)
        [Sample.item 1000 2 false None] (Some true) Sample.context
        (Some (int 10)) None = inr m)
  /\ (exists m,
        getShippingMethodsTotals (caps := Sample.caps false)
          [Sample.method 1000 false None] (Some true) None (Some (int 10))
          Sample.context None = inr m
        /\ exists t,
             m !! "sm_1" = Some t
             /\ ShippingMethodTotals.tax_total t = JS.NaN
             /\ ShippingMethodTotals.original_tax_total t = JS.NaN).
Proof.
  destruct (X15_legacy_batches (caps := Sample.caps false)
              [Sample.item 1000 2 false None] [Sample.method 1000 false None]
              (Some true) None Sample.context (int 10) None ltac:(qc_differ))
    as [Hitems (m & Hm & Hentries)].
  split; [exact Hitems|].
  exists m. split; [exact Hm|].
  destruct (m !! "sm_1") as [t|] eqn:Et.
  - exists t. destruct (Hentries "sm_1" t Et) as (Htax & Hott & _). auto.
  - exfalso. revert Hm Et. vm_compute. intros [= <-]. discriminate.
Defined.

Lemma X16_witness :
  exists m,
    getLineItemsTotals (caps := Sample.caps false)
      [Sample.item 1000 2 false (Some [Sample.vat 10])] None Sample.context
      None None = inr m
    /\ (is_Some (m !! "item_1")
        <-> "item_1" ∈ (LineItem.id <$> [Sample.item 1000 2 false (Some [Sample.vat 10])]))
    /\ (is_Some (m !! "item_2")
        <-> "item_2" ∈ (LineItem.id <$> [Sample.item 1000 2 false (Some [Sample.vat 10])])).
Proof.
  destruct (X16_batch_keys (caps := Sample.caps false)) as [Hitems _].
  destruct (getLineItemsTotals (caps := Sample.caps false)
              [Sample.item 1000 2 false (Some [Sample.vat 10])] None
              Sample.context None None) as [e|m] eqn:Em; [discriminate Em|].
  exists m. split; [reflexivity|]. split; eapply Hitems; exact Em.
Defined.

(** ** Tax lines, overrides and rejections *)

Lemma forOf_ext_in {A S} (b1 b2 : S -> A -> Result S) (l : list A) (s : S) :
  (forall x, x ∈ l -> forall s', b1 s' x = b2 s' x) ->
  forOf b1 l s = forOf b2 l s.
Proof.
  revert s. induction l as [|a l IH]; intros s Hext; simpl; [reflexivity|].
  rewrite (Hext a (list_elem_of_here _ _)).
  destruct (b2 s a) as [e|s']; simpl; [reflexivity|].
  apply IH. intros x Hx. apply Hext. by apply list_elem_of_further.
Qed.

Lemma forOf_last {A V} (key : A -> string) (f : A -> Result V)
    (l1 l2 : list A) (x : A) (m0 m : gmap string V) :
  forOf (fun acc x => await v <- f x; ret (<[key x := v]> acc))
    (l1 ++ x :: l2) m0 = inr m ->
  key x ∉ (key <$> l2) ->
  exists v, f x = inr v /\ m !! key x = Some v.
Proof.
  revert m0. induction l1 as [|a l1 IH]; intros m0; simpl.
  - destruct (f x) as [e|v] eqn:Ex; simpl; [discriminate|].
    intros Hloop Hfresh. exists v. split; [reflexivity|].
    apply forOf_insert in Hloop as [Hout _].
    rewrite (Hout _ Hfresh). by rewrite lookup_insert_eq.
  - destruct (f a) as [e|w]; simpl; [discriminate|]. apply IH.
Qed.

Section TaxLines.

Context `{caps : Capabilities}.

(** The current line-item path reads the override and the item's own tax
    lines only through the effective list. *)
Lemma getLineItemTotals_effective item includeTax alloc taxLines taxLines' ctx :
  effective_tax_lines taxLines (LineItem.tax_lines item)
  = effective_tax_lines taxLines' (LineItem.tax_lines item) ->
  getLineItemTotals item includeTax alloc taxLines ctx
  = getLineItemTotals item includeTax alloc taxLines' ctx.
Proof.
  intros Heq. unfold getLineItemTotals. rewrite !coalesce_effective, Heq.
  reflexivity.
Qed.

(** X17.  An override that is an empty list is an override: the tax lines
    the entity carries are not used in its place.  Without [includeTax] the
    line-item record has no tax line and no tax; with [includeTax] both
    current-path computations raise the missing-tax-lines error, whatever
    tax lines the entity carries. *)
Theorem X17_empty_override_is_kept item sm alloc ctx discounts :
  (exists t,
      getLineItemTotals item None alloc (Some []) ctx = inr t
      /\ LineItemTotals.tax_lines t = Some []
      /\ LineItemTotals.tax_total t = 0
      /\ LineItemTotals.original_tax_total t = 0)
  /\ getLineItemTotals item (Some true) alloc (Some []) ctx
     = inl tax_lines_must_be_joined
  /\ getShippingMethodTotals sm (Some true) ctx (Some []) discounts
     = inl tax_lines_must_be_joined.
Proof.
  split; [|split; reflexivity].
  unfold getLineItemTotals. simpl. eexists. split; [reflexivity|].
  simpl. auto.
Qed.

(** X18.  For line items with distinct ids, asking the batch to include tax
    from the tax lines the items carry changes nothing: the result is the
    one of a call that does not ask for tax at all. *)
Theorem X18_use_existing_tax_lines_is_neutral items ctx taxRate useExisting :
  NoDup (LineItem.id <$> items) ->
  getLineItemsTotals items (Some true) ctx taxRate (Some true)
  = getLineItemsTotals items None ctx taxRate useExisting.
Proof.
  intros Hnd. unfold getLineItemsTotals.
  rewrite andb_false_r. simpl.
  destruct (negb (JS.truthy_opt taxRate)) eqn:Hrate; simpl; [|reflexivity].
  apply forOf_ext_in. intros item Hitem acc.
  rewrite (fold_insert_lookup LineItem.id
             (fun item => default [] (LineItem.tax_lines item))
             items ∅ item Hnd Hitem).
  rewrite lookup_empty.
  assert (Hcur : forall alloc,
    getLineItemTotals item None alloc
      (Some (default [] (LineItem.tax_lines item))) ctx
    = getLineItemTotals item None alloc None ctx).
  { intros alloc. apply getLineItemTotals_effective.
    destruct (LineItem.tax_lines item); reflexivity. }
  destruct taxRate as [r|]; simpl; [|by rewrite Hcur].
  destruct (JS.truthy r); [reflexivity|by rewrite Hcur].
Qed.

(** X19.  When ids repeat in a line-item batch, the entry of an id is the
    record of the last item that has it. *)
Theorem X19_last_item_wins
    items1 item items2 includeTax ctx taxRate useExisting m :
  getLineItemsTotals (items1 ++ item :: items2) includeTax ctx taxRate useExisting
  = inr m ->
  LineItem.id item ∉ (LineItem.id <$> items2) ->
  exists t,
    m !! LineItem.id item = Some t
    /\ (if JS.truthy_opt taxRate then
          getLineItemTotalsLegacy item (default 0 taxRate)
            (allocation_of ctx item) ctx = inr t
        else
          exists taxLines,
            getLineItemTotals item None (allocation_of ctx item) taxLines ctx
            = inr t).
Proof.
  intros Hret Hfresh.
  destruct (getLineItemsTotals_shape (items1 ++ item :: items2) includeTax ctx
              taxRate useExisting) as [(e & _ & He)|[tl Hshape]]; [congruence|].
  rewrite Hshape in Hret.
  apply (forOf_last LineItem.id
           (fun item =>
              if JS.truthy_opt taxRate then
                getLineItemTotalsLegacy item (default 0 taxRate)
                  (allocation_of ctx item) ctx
              else
                getLineItemTotals item None (allocation_of ctx item)
                  (tl !! LineItem.id item) ctx))
    in Hret as (t & Ht & Hm); [|exact Hfresh].
  exists t. split; [exact Hm|].
  destruct (JS.truthy_opt taxRate); eauto.
Qed.

(** X20.  A rejection of an external capability is the outcome of the call:
    the strategy rejecting on the discounted or on the undiscounted context
    of a line item with tax lines, the strategy rejecting for a shipping
    method that passed the tax-lines guard, and the provider rejecting when
    the line-item batch fetches tax lines. *)
Theorem X20_rejection_propagates :
  (forall item includeTax alloc taxLines ctx e,
      effective_tax_lines taxLines (LineItem.tax_lines item) <> [] ->
      calculate [item] (effective_tax_lines taxLines (LineItem.tax_lines item)) ctx
      = inl e ->
      getLineItemTotals item includeTax alloc taxLines ctx = inl e)
  /\ (forall item includeTax alloc taxLines ctx tax e,
      effective_tax_lines taxLines (LineItem.tax_lines item) <> [] ->
      calculate [item] (effective_tax_lines taxLines (LineItem.tax_lines item)) ctx
      = inr tax ->
      calculate [item] (effective_tax_lines taxLines (LineItem.tax_lines item))
        (TaxCalculationContext.with_allocation_map ∅ ctx) = inl e ->
      getLineItemTotals item includeTax alloc taxLines ctx = inl e)
  /\ (forall sm includeTax ctx taxLines discounts e,
      (JS.truthy_flag includeTax = true ->
       effective_tax_lines taxLines (ShippingMethod.tax_lines sm) <> []) ->
      calculate [] (effective_tax_lines taxLines (ShippingMethod.tax_lines sm))
        (TaxCalculationContext.with_shipping_methods [sm] ctx) = inl e ->
      getShippingMethodTotals sm includeTax ctx taxLines discounts = inl e)
  /\ (forall items ctx taxRate useExisting e,
      JS.truthy_opt taxRate = false ->
      JS.truthy_flag useExisting = false ->
      items <> [] ->
      getTaxLinesMap items ctx = inl e ->
      getLineItemsTotals items (Some true) ctx taxRate useExisting = inl e).
Proof.
  split; [|split; [|split]].
  - intros item includeTax alloc taxLines ctx e Hne Hcalc.
    unfold getLineItemTotals. rewrite coalesce_effective.
    destruct (effective_tax_lines taxLines (LineItem.tax_lines item));
      [done|].
    rewrite andb_false_r. simpl. rewrite Hcalc. reflexivity.
  - intros item includeTax alloc taxLines ctx tax e Hne Hcalc Hcalc'.
    unfold getLineItemTotals. rewrite coalesce_effective.
    destruct (effective_tax_lines taxLines (LineItem.tax_lines item));
      [done|].
    rewrite andb_false_r. simpl. rewrite Hcalc. simpl. rewrite Hcalc'.
    reflexivity.
  - intros sm includeTax ctx taxLines discounts e Hguard Hcalc.
    unfold getShippingMethodTotals. rewrite coalesce_effective.
    destruct (JS.truthy_flag includeTax && _) eqn:Hg.
    + apply andb_true_iff in Hg as [Hinc Hlen].
      apply length_eqb_nil in Hlen. by destruct (Hguard Hinc).
    + rewrite Hcalc. reflexivity.
  - intros items ctx taxRate useExisting e Hrate Huse Hne Hprov.
    unfold getLineItemsTotals. rewrite Hrate, Huse. simpl.
    destruct items; [done|]. simpl. rewrite Hprov. reflexivity.
Qed.

End TaxLines.

Lemma X18_witness :
  getLineItemsTotals (caps := Sample.caps false)
    [Sample.item 1000 2 false (Some [Sample.vat 10])] (Some true)
    Sample.context None (Some true)
  = getLineItemsTotals (caps := Sample.caps false)
      [Sample.item 1000 2 false (Some [Sample.vat 10])] None
      Sample.context None None.
Proof.
  apply (X18_use_existing_tax_lines_is_neutral (caps := Sample.caps false)).
  apply NoDup_singleton.
Defined.

Lemma X19_witness :
  let first := Sample.item 1000 2 false (Some [Sample.vat 10]) in
  let last := Sample.item 500 1 false (Some [Sample.vat 10]) in
  exists m t,
    getLineItemsTotals (caps := Sample.caps false) ([first] ++ last :: [])
      None Sample.context (Some (int 10)) None = inr m
    /\ m !! "item_1" = Some t
    /\ getLineItemTotalsLegacy (caps := Sample.caps false) last (int 10)
         (allocation_of Sample.context last) Sample.context = inr t
    /\ LineItemTotals.unit_price t = int 500.
Proof.
  intros first last.
  destruct (getLineItemsTotals (caps := Sample.caps false)
              ([first] ++ last :: []) None Sample.context (Some (int 10)) None)
    as [e|m] eqn:Em; [discriminate Em|].
  destruct (X19_last_item_wins (caps := Sample.caps false) [first] last []
              None Sample.context (Some (int 10)) None m Em) as (t & Hm & Ht).
  { apply not_elem_of_nil. }
  exists m, t. split; [reflexivity|]. split; [exact Hm|]. split; [exact Ht|].
  simpl in Ht. revert Ht. intros [= <-]. reflexivity.
Defined.

(** A strategy that rejects every call. *)
Lemma X20_witness :
  let rejecting : Capabilities :=
    {| calculate := fun _ _ _ => inl (Rejected "tax service unavailable");
       getTaxLinesMap := fun _ _ => inl (Rejected "tax service unavailable");
       isFeatureEnabled := fun _ => false;
       TaxInclusivePricingFeatureFlag_key := "tax_inclusive_pricing";
       calculatePriceTaxAmount := Sample.priceTaxAmount |} in
  getLineItemTotals (caps := rejecting)
    (Sample.item 1000 2 false (Some [Sample.vat 10])) None no_allocation None
    Sample.context = inl (Rejected "tax service unavailable")
  /\ getShippingMethodTotals (caps := rejecting)
       (Sample.method 1000 false None) None Sample.context None None
     = inl (Rejected "tax service unavailable")
  /\ getLineItemsTotals (caps := rejecting)
       [Sample.item 1000 2 false None] (Some true) Sample.context None None
     = inl (Rejected "tax service unavailable").
Proof.
  intros rejecting.
  destruct (X20_rejection_propagates (caps := rejecting))
    as (Hitem & _ & Hsm & Hbatch).
  split; [|split].
  - apply Hitem; [discriminate|reflexivity].
  - apply Hsm; [discriminate|reflexivity].
  - apply Hbatch; [reflexivity|reflexivity|discriminate|reflexivity].
Defined.
